(** * RestOC.Services: the dispatch layer, embedded and verified

    A shallow embedding of [RestOC/Services.py]: the [Effect] result
    envelope, the [Service] dispatch contract, the registry and router
    ([register], [__request]) and the internal key scheme ([internalKey]),
    together with the parts of Python they run on (decimal [str]/[int],
    slicing, [split], [upper], the [repr] of [bytes], [json.dumps] and
    [json.loads], and SHA-1). *)

From Stdlib Require Import ZArith String Ascii List Lia Bool.
From stdpp Require Import gmap strings list.

Local Open Scope string_scope.
Local Open Scope Z_scope.
Set Warnings "-register-all".

(** ** Python values and outcomes *)

(** The exception classes the module raises or lets through.  All of them
    derive from [Exception]. *)
Inductive exc_class :=
  | Exception | ValueError | KeyError | TypeError | IndexError
  | AttributeError | NameError | EffectException | ConnectionError.

#[global] Instance exc_class_eq_dec : EqDecision exc_class.
Proof. solve_decision. Defined.

(** A reference to an object that carries methods (a [Service] instance or
    anything else that is not plain data). *)
Definition oid := positive.

(** Python values.  A [str] is a [string] whose characters are the code
    points 0..255; [bytes] is a [string] of bytes.  A [dict] is keyed by
    [str] and keeps insertion order.  An [Effect] instance has each of its
    three attributes set or not set; an attribute that is set may hold
    [None]. *)
Inductive pyval :=
  | PNone
  | PBool (b : bool)
  | PInt (z : Z)
  | PStr (s : string)
  | PBytes (b : string)
  | PTuple (l : list pyval)
  | PList (l : list pyval)
  | PDict (d : list (string * pyval))
  | PExc (cls : exc_class) (args : list pyval)
  | PEffect (e : Effect)
  | PObj (o : oid)
with Effect :=
  | mkEffect (data error warning : option pyval).

Definition e_data (e : Effect) : option pyval := let (d, _, _) := e in d.
Definition e_error (e : Effect) : option pyval := let (_, x, _) := e in x.
Definition e_warning (e : Effect) : option pyval := let (_, _, w) := e in w.

(** The outcome of running a piece of the module: it returns, it raises, or
    it leaves the fragment of Python that is modelled here (a float, a code
    point above 255, an attribute the model knows nothing about). *)
Inductive result (A : Type) :=
  | Return (a : A)
  | Raise (cls : exc_class) (args : list pyval)
  | Unmodelled.
Arguments Return {A} a.
Arguments Raise {A} cls args.
Arguments Unmodelled {A}.

Definition result_bind {A B} (f : A -> result B) (c : result A) : result B :=
  match c with
  | Return a => f a
  | Raise cls args => Raise cls args
  | Unmodelled => Unmodelled
  end.

#[global] Instance result_ret : MRet result := @Return.
#[global] Instance result_mbind : MBind result := @result_bind.

(** [try: c / except cls: h] for a single exception class. *)
Definition try_except {A} (c : result A) (cls : exc_class)
    (h : list pyval -> result A) : result A :=
  match c with
  | Raise cls' args =>
      if decide (cls' = cls) then h args else Raise cls' args
  | r => r
  end.

(** ** Python primitives *)

Module Py.

Definition code (c : ascii) : Z := Z.of_N (N_of_ascii c).
Definition chr (z : Z) : ascii := ascii_of_N (Z.to_N z).

Definition is_ascii (c : ascii) : bool := code c <? 128.

Fixpoint all_chars (p : ascii -> bool) (s : string) : bool :=
  match s with
  | EmptyString => true
  | String c r => p c && all_chars p r
  end.

Definition ascii_only (s : string) : bool := all_chars is_ascii s.

(** [len(s)] *)
Definition len (s : string) : Z := Z.of_nat (String.length s).

(** [s[n:]] and [s[:n]] for [0 <= n]. *)
Fixpoint slice_from (n : nat) (s : string) : string :=
  match n, s with
  | O, _ => s
  | S m, String _ r => slice_from m r
  | S _, EmptyString => EmptyString
  end.

Fixpoint slice_to (n : nat) (s : string) : string :=
  match n, s with
  | S m, String c r => String c (slice_to m r)
  | _, _ => EmptyString
  end.

(** [c.upper()] for one character.  On ASCII it maps [a-z] to [A-Z] and
    fixes everything else; other characters need the Unicode tables. *)
Definition upper_char (c : ascii) : ascii :=
  if (97 <=? code c) && (code c <=? 122) then chr (code c - 32) else c.

Definition upper (c : ascii) : result string :=
  if is_ascii c then Return (String (upper_char c) EmptyString)
  else Unmodelled.

Definition lower_char (c : ascii) : ascii :=
  if (65 <=? code c) && (code c <=? 90) then chr (code c + 32) else c.

(** [s.lower()] on ASCII text. *)
Fixpoint lower (s : string) : result string :=
  match s with
  | EmptyString => Return EmptyString
  | String c r =>
      if is_ascii c
      then r' ← lower r; Return (String (lower_char c) r')
      else Unmodelled
  end.

(** *** Decimal text: [str(n)] and [int(s)] *)

Definition digit_char (d : Z) : ascii := chr (48 + d).

Fixpoint str_digits (fuel : nat) (n : Z) (acc : string) : string :=
  match fuel with
  | O => acc
  | S f =>
      let acc' := String (digit_char (n mod 10)) acc in
      if n <? 10 then acc' else str_digits f (n / 10) acc'
  end.

Definition str_nat (n : Z) : string :=
  str_digits (S (Z.to_nat (Z.log2 n))) n EmptyString.

(** [str(z)] for an [int]. *)
Definition str_int (z : Z) : string :=
  if z <? 0 then String "-" (str_nat (- z)) else str_nat z.

(** The characters [int] skips around the digits of a [str]: the ASCII
    white space (tab, line feed, vertical tab, form feed, carriage return,
    space) and, above 127, the two white-space code points there are up
    to 255 (next line and no-break space).  The separators 28..31, which
    [str.strip] drops, are not skipped by [int]. *)
Definition is_space (c : ascii) : bool :=
  let n := code c in
  ((9 <=? n) && (n <=? 13)) || (n =? 32) || (n =? 133) || (n =? 160).

Definition is_digit (c : ascii) : bool :=
  (48 <=? code c) && (code c <=? 57).

Fixpoint lstrip (s : string) : string :=
  match s with
  | String c r => if is_space c then lstrip r else s
  | EmptyString => EmptyString
  end.

Fixpoint rstrip (s : string) : string :=
  match s with
  | EmptyString => EmptyString
  | String c r =>
      match rstrip r with
      | EmptyString => if is_space c then EmptyString else String c EmptyString
      | r' => String c r'
      end
  end.

Definition strip (s : string) : string := rstrip (lstrip s).

(** Digits with single underscores between them. *)
Fixpoint int_digits (s : string) (acc : Z) (after_digit : bool) : option Z :=
  match s with
  | EmptyString => if after_digit then Some acc else None
  | String c r =>
      if is_digit c then int_digits r (acc * 10 + (code c - 48)) true
      else if Ascii.eqb c "_"%char && after_digit then int_digits r acc false
      else None
  end.

(** [int(s)] for a [str]; [None] is Python's ValueError. *)
Definition int_of_str (s : string) : option Z :=
  match strip s with
  | String "-"%char r => Z.opp <$> int_digits r 0 false
  | String "+"%char r => int_digits r 0 false
  | t => int_digits t 0 false
  end.

(** *** [s.split(sep)] for a one-character separator *)

Fixpoint split (sep : ascii) (s : string) : list string :=
  match s with
  | EmptyString => [EmptyString]
  | String c r =>
      if Ascii.eqb c sep then EmptyString :: split sep r
      else match split sep r with
           | h :: t => String c h :: t
           | [] => [String c EmptyString]
           end
  end.

(** *** [s.encode('utf-8')] for code points 0..255 *)

Fixpoint encode_utf8 (s : string) : string :=
  match s with
  | EmptyString => EmptyString
  | String c r =>
      if is_ascii c then String c (encode_utf8 r)
      else String (chr (192 + code c / 64))
             (String (chr (128 + code c mod 64)) (encode_utf8 r))
  end.

(** *** Hexadecimal digits and the [repr] of [bytes] *)

Definition hex_char (d : Z) : ascii :=
  if d <? 10 then chr (48 + d) else chr (87 + d).

Definition hex2 (n : Z) : string :=
  String (hex_char (n / 16)) (String (hex_char (n mod 16)) EmptyString).

Fixpoint contains_char (x : ascii) (s : string) : bool :=
  match s with
  | EmptyString => false
  | String c r => Ascii.eqb c x || contains_char x r
  end.

Definition dquote : ascii := chr 34.

Definition bytes_quote (b : string) : ascii :=
  if contains_char "'"%char b && negb (contains_char dquote b)
  then dquote else "'"%char.

Fixpoint bytes_repr_body (q : ascii) (b : string) : string :=
  match b with
  | EmptyString => EmptyString
  | String c r =>
      let n := code c in
      (if Ascii.eqb c q || (n =? 92) then String "\"%char (String c EmptyString)
       else if n =? 9 then "\t"
       else if n =? 10 then "\n"
       else if n =? 13 then "\r"
       else if (n <? 32) || (127 <=? n) then "\x" +:+ hex2 n
       else String c EmptyString) +:+ bytes_repr_body q r
  end.

(** [str(b)] (equally [repr(b)]) for a [bytes] object [b]. *)
Definition str_bytes (b : string) : string :=
  let q := bytes_quote b in
  "b" +:+ String q (bytes_repr_body q b +:+ String q EmptyString).

End Py.

(** ** SHA-1 ([hashlib.sha1(...).hexdigest()]) *)

Module Sha1.

Definition mask32 (x : Z) : Z := Z.land x 4294967295.

Definition rotl (n x : Z) : Z :=
  mask32 (Z.lor (Z.shiftl x n) (Z.shiftr x (32 - n))).

Definition add32 (x y : Z) : Z := mask32 (x + y).

Fixpoint bytes_of (s : string) : list Z :=
  match s with
  | EmptyString => []
  | String c r => Py.code c :: bytes_of r
  end.

(** The big-endian bytes of [x], [n] of them. *)
Fixpoint be_bytes (n : nat) (x : Z) : list Z :=
  match n with
  | O => []
  | S m => Z.land (Z.shiftr x (8 * Z.of_nat m)) 255 :: be_bytes m x
  end.

(** Message padding: a one bit, zeros up to 56 modulo 64, then the length
    in bits on eight bytes. *)
Definition pad (msg : list Z) : list Z :=
  let l := Z.of_nat (length msg) in
  msg ++ [128] ++ repeat 0 (Z.to_nat ((55 - l) mod 64)) ++ be_bytes 8 (8 * l).

Fixpoint words (bs : list Z) : list Z :=
  match bs with
  | a :: b :: c :: d :: r =>
      Z.lor (Z.shiftl a 24) (Z.lor (Z.shiftl b 16) (Z.lor (Z.shiftl c 8) d))
      :: words r
  | _ => []
  end.

(** The message schedule, most recent word first. *)
Fixpoint schedule (n : nat) (w : list Z) : list Z :=
  match n with
  | O => w
  | S m =>
      let x := Z.lxor (Z.lxor (nth 2 w 0) (nth 7 w 0))
                      (Z.lxor (nth 13 w 0) (nth 15 w 0)) in
      schedule m (rotl 1 x :: w)
  end.

Definition state : Type := Z * Z * Z * Z * Z.

Definition round (t : Z) (st : state) (w : Z) : state :=
  let '(a, b, c, d, e) := st in
  let '(f, k) :=
    if t <? 20 then
      (Z.lor (Z.land b c) (Z.land (Z.lxor b 4294967295) d), 1518500249)
    else if t <? 40 then (Z.lxor b (Z.lxor c d), 1859775393)
    else if t <? 60 then
      (Z.lor (Z.land b c) (Z.lor (Z.land b d) (Z.land c d)), 2400959708)
    else (Z.lxor b (Z.lxor c d), 3395469782) in
  (add32 (add32 (add32 (add32 (rotl 5 a) f) e) k) w, a, rotl 30 b, c, d).

Fixpoint rounds (t : Z) (ws : list Z) (st : state) : state :=
  match ws with
  | [] => st
  | w :: r => rounds (t + 1) r (round t st w)
  end.

Definition compress (h : state) (block : list Z) : state :=
  let w := rev (schedule 64 (rev (words block))) in
  let '(a, b, c, d, e) := rounds 0 w h in
  let '(h0, h1, h2, h3, h4) := h in
  (add32 h0 a, add32 h1 b, add32 h2 c, add32 h3 d, add32 h4 e).

Fixpoint blocks (n : nat) (bs : list Z) (h : state) : state :=
  match n with
  | O => h
  | S m => blocks m (skipn 64 bs) (compress h (firstn 64 bs))
  end.

Definition init : state :=
  (1732584193, 4023233417, 2562383102, 271733878, 3285377520).

Definition digest (msg : string) : state :=
  let bs := pad (bytes_of msg) in
  blocks (length bs / 64)%nat bs init.

Definition hex32 (x : Z) : string :=
  fold_right (fun b acc => Py.hex2 b +:+ acc) EmptyString (be_bytes 4 x).

(** [sha1(msg).hexdigest()] for the bytes [msg]. *)
Definition hexdigest (msg : string) : string :=
  let '(a, b, c, d, e) := digest msg in
  hex32 a +:+ hex32 b +:+ hex32 c +:+ hex32 d +:+ hex32 e.

End Sha1.

(** ** The json module: [json.dumps] and [json.loads] *)

(** Dictionaries: [d[k]], [k in d] and [d[k] = v] on an insertion-ordered
    dict. *)
Fixpoint dict_get {A} (d : list (string * A)) (k : string) : option A :=
  match d with
  | [] => None
  | (k', v) :: r => if String.eqb k' k then Some v else dict_get r k
  end.

Fixpoint dict_set {A} (d : list (string * A)) (k : string) (v : A)
    : list (string * A) :=
  match d with
  | [] => [(k, v)]
  | (k', v') :: r =>
      if String.eqb k' k then (k', v) :: r else (k', v') :: dict_set r k v
  end.

(** [dict(pairs)]: later pairs overwrite earlier ones. *)
Definition dict_of_pairs {A} (ps : list (string * A)) : list (string * A) :=
  fold_left (fun d p => dict_set d (fst p) (snd p)) ps [].

Module Json.

Definition hex4 (n : Z) : string :=
  Py.hex2 (n / 256) +:+ Py.hex2 (n mod 256).

(** One character of a string, as [json.dumps] writes it with its default
    [ensure_ascii=True]. *)
Definition escape_char (c : ascii) : string :=
  let n := Py.code c in
  if n =? 34 then String "\"%char (String c EmptyString)
  else if n =? 92 then "\\"
  else if n =? 10 then "\n"
  else if n =? 13 then "\r"
  else if n =? 9 then "\t"
  else if n =? 12 then "\f"
  else if n =? 8 then "\b"
  else if (n <? 32) || (126 <? n) then "\u" +:+ hex4 n
  else String c EmptyString.

Fixpoint escape (s : string) : string :=
  match s with
  | EmptyString => EmptyString
  | String c r => escape_char c +:+ escape r
  end.

Definition quote (s : string) : string :=
  String Py.dquote (escape s +:+ String Py.dquote EmptyString).

(** [json.dumps(v)] with the default separators.  What the encoder does
    not know raises TypeError (its message, which names the type, is left
    out). *)
Definition dumps_items (dumps : pyval -> result string)
    : list pyval -> result string :=
  fix items (l : list pyval) : result string :=
    match l with
    | [] => Return EmptyString
    | x :: r =>
        sx ← dumps x;
        match r with
        | [] => Return sx
        | _ => sr ← items r; Return (sx +:+ ", " +:+ sr)
        end
    end.

Definition dumps_members (dumps : pyval -> result string)
    : list (string * pyval) -> result string :=
  fix members (d : list (string * pyval)) : result string :=
    match d with
    | [] => Return EmptyString
    | (k, x) :: r =>
        sx ← dumps x;
        match r with
        | [] => Return (quote k +:+ ": " +:+ sx)
        | _ =>
            sr ← members r;
            Return (quote k +:+ ": " +:+ sx +:+ ", " +:+ sr)
        end
    end.

Fixpoint dumps (v : pyval) : result string :=
  match v with
  | PNone => Return "null"
  | PBool true => Return "true"
  | PBool false => Return "false"
  | PInt z => Return (Py.str_int z)
  | PStr s => Return (quote s)
  | PList l | PTuple l =>
      body ← dumps_items dumps l; Return ("[" +:+ body +:+ "]")
  | PDict d =>
      body ← dumps_members dumps d; Return ("{" +:+ body +:+ "}")
  | PBytes _ | PExc _ _ | PEffect _ | PObj _ => Raise TypeError []
  end.

(** *** The decoder *)

Definition is_ws (c : ascii) : bool :=
  let n := Py.code c in (n =? 32) || (n =? 9) || (n =? 10) || (n =? 13).

Fixpoint skip_ws (s : string) : string :=
  match s with
  | String c r => if is_ws c then skip_ws r else s
  | EmptyString => EmptyString
  end.

Definition hex_val (c : ascii) : option Z :=
  let n := Py.code c in
  if (48 <=? n) && (n <=? 57) then Some (n - 48)
  else if (97 <=? n) && (n <=? 102) then Some (n - 87)
  else if (65 <=? n) && (n <=? 70) then Some (n - 55)
  else None.

Definition unescape (c : ascii) : option ascii :=
  let n := Py.code c in
  if (n =? 34) || (n =? 92) || (n =? 47) then Some c
  else if n =? 98 then Some (Py.chr 8)
  else if n =? 102 then Some (Py.chr 12)
  else if n =? 110 then Some (Py.chr 10)
  else if n =? 114 then Some (Py.chr 13)
  else if n =? 116 then Some (Py.chr 9)
  else None.

Definition decode_error {A} : result A := Raise ValueError [].

(** The body of a string literal, after its opening quote.  A code point
    above 255 is outside the model. *)
Fixpoint scan_string (s : string) : result (string * string) :=
  match s with
  | EmptyString => decode_error
  | String c r =>
      if Py.code c =? 34 then Return (EmptyString, r)
      else if Py.code c =? 92 then
        match r with
        | EmptyString => decode_error
        | String e r1 =>
            if Py.code e =? 117 then
              match r1 with
              | String a (String b (String x (String y r2))) =>
                  match hex_val a, hex_val b, hex_val x, hex_val y with
                  | Some ha, Some hb, Some hx, Some hy =>
                      let n := ((ha * 16 + hb) * 16 + hx) * 16 + hy in
                      if n <? 256 then
                        p ← scan_string r2;
                        Return (String (Py.chr n) (fst p), snd p)
                      else Unmodelled
                  | _, _, _, _ => decode_error
                  end
              | _ => decode_error
              end
            else
              match unescape e with
              | Some ch =>
                  p ← scan_string r1;
                  Return (String ch (fst p), snd p)
              | None => decode_error
              end
        end
      else if Py.code c <? 32 then decode_error
      else p ← scan_string r; Return (String c (fst p), snd p)
  end.

Fixpoint span_digits (s : string) : string * string :=
  match s with
  | String c r =>
      if Py.is_digit c
      then let p := span_digits r in (String c (fst p), snd p)
      else (EmptyString, s)
  | EmptyString => (EmptyString, EmptyString)
  end.

Fixpoint digits_value (s : string) (acc : Z) : Z :=
  match s with
  | EmptyString => acc
  | String c r => digits_value r (acc * 10 + (Py.code c - 48))
  end.

Definition starts_with_digit (s : string) : bool :=
  match s with String c _ => Py.is_digit c | EmptyString => false end.

(** Does a fraction or an exponent follow the integer part?  Then the
    literal denotes a float. *)
Definition float_tail (s : string) : bool :=
  match s with
  | String c r =>
      if Py.code c =? 46 then starts_with_digit r
      else if (Py.code c =? 101) || (Py.code c =? 69) then
        match r with
        | String g r' =>
            if (Py.code g =? 43) || (Py.code g =? 45)
            then starts_with_digit r' else Py.is_digit g
        | EmptyString => false
        end
      else false
  | EmptyString => false
  end.

(** The integer part [0|[1-9][0-9]*] at the head of [s]. *)
Definition scan_nat (s : string) : option (Z * string) :=
  match s with
  | String c r =>
      if Py.code c =? 48 then Some (0, r)
      else if Py.is_digit c then
        let p := span_digits s in Some (digits_value (fst p) 0, snd p)
      else None
  | EmptyString => None
  end.

Definition scan_number (neg : bool) (s : string) : result (pyval * string) :=
  match scan_nat s with
  | Some (n, r) =>
      if float_tail r then Unmodelled
      else Return (PInt (if neg then - n else n), r)
  | None => decode_error
  end.

Fixpoint strip_prefix (p s : string) : option string :=
  match p, s with
  | EmptyString, _ => Some s
  | String a p', String b s' =>
      if Ascii.eqb a b then strip_prefix p' s' else None
  | _, EmptyString => None
  end.

Definition scan_literal (s : string) : result (pyval * string) :=
  match strip_prefix "null" s with
  | Some r => Return (PNone, r)
  | None =>
  match strip_prefix "true" s with
  | Some r => Return (PBool true, r)
  | None =>
  match strip_prefix "false" s with
  | Some r => Return (PBool false, r)
  | None =>
  match strip_prefix "NaN" s, strip_prefix "Infinity" s,
        strip_prefix "-Infinity" s with
  | None, None, None => decode_error
  | _, _, _ => Unmodelled
  end end end end.

(** The text after [x], when [s] begins with [x]. *)
Definition next_is (x : ascii) (s : string) : option string :=
  match s with
  | String c r => if Ascii.eqb c x then Some r else None
  | EmptyString => None
  end.

(** [scan_once]: one JSON value at the head of [s].  The recursion is on
    [fuel]; [loads] supplies more than any text can use. *)
Fixpoint scan_value (fuel : nat) (s : string) : result (pyval * string) :=
  match fuel with
  | O => Unmodelled
  | S f =>
      match s with
      | EmptyString => decode_error
      | String c r =>
          let n := Py.code c in
          if n =? 34 then
            p ← scan_string r; Return (PStr (fst p), snd p)
          else if n =? 91 then
            match next_is "]" (skip_ws r) with
            | Some r1 => Return (PList [], r1)
            | None =>
                p ← scan_items f (skip_ws r); Return (PList (fst p), snd p)
            end
          else if n =? 123 then
            match next_is "}" (skip_ws r) with
            | Some r1 => Return (PDict [], r1)
            | None =>
                p ← scan_members f (skip_ws r);
                Return (PDict (dict_of_pairs (fst p)), snd p)
            end
          else if n =? 45 then
            match scan_nat r with
            | Some _ => scan_number true r
            | None => scan_literal s
            end
          else if Py.is_digit c then scan_number false s
          else scan_literal s
      end
  end
with scan_items (fuel : nat) (s : string) : result (list pyval * string) :=
  match fuel with
  | O => Unmodelled
  | S f =>
      p ← scan_value f s;
      let r := skip_ws (snd p) in
      match next_is "]" r with
      | Some r1 => Return ([fst p], r1)
      | None =>
          match next_is "," r with
          | Some r1 =>
              q ← scan_items f (skip_ws r1);
              Return (fst p :: fst q, snd q)
          | None => decode_error
          end
      end
  end
with scan_members (fuel : nat) (s : string)
    : result (list (string * pyval) * string) :=
  match fuel with
  | O => Unmodelled
  | S f =>
      match next_is Py.dquote s with
      | None => decode_error
      | Some r =>
          k ← scan_string r;
          match next_is ":" (skip_ws (snd k)) with
          | None => decode_error
          | Some r1 =>
              p ← scan_value f (skip_ws r1);
              let r2 := skip_ws (snd p) in
              match next_is "}" r2 with
              | Some r3 => Return ([(fst k, fst p)], r3)
              | None =>
                  match next_is "," r2 with
                  | Some r3 =>
                      q ← scan_members f (skip_ws r3);
                      Return ((fst k, fst p) :: fst q, snd q)
                  | None => decode_error
                  end
              end
          end
      end
  end.

(** [json.loads(s)] for a [str]: one value, white space around it, and
    nothing else.  A malformed text raises ValueError (JSONDecodeError). *)
Definition loads (s : string) : result pyval :=
  p ← scan_value (2 * String.length s + 2) (skip_ws s);
  match skip_ws (snd p) with
  | EmptyString => Return (fst p)
  | _ => decode_error
  end.

End Json.

(** ** The Service class: path to method *)

Definition is_separator (c : ascii) : bool :=
  Ascii.eqb c "/"%char || Ascii.eqb c "_"%char.

(** The [while] loop of [Service.pathToMethod], with [path] already advanced
    to position [i].  The loop reads [path[i]]; on a separator it moves to
    [i+1] and reads [path[i]] again, which raises IndexError past the end. *)
Fixpoint pathToMethod_loop (path : string) (sRet : string) : result string :=
  match path with
  | EmptyString => Return sRet
  | String c rest =>
      if is_separator c then
        match rest with
        | EmptyString =>
            Raise IndexError [PStr "string index out of range"]
        | String d rest' =>
            u ← Py.upper d;
            pathToMethod_loop rest' (sRet +:+ u)
        end
      else pathToMethod_loop rest (sRet +:+ String c EmptyString)
  end.

Definition pathToMethod (path append : string) : result string :=
  sRet ← pathToMethod_loop path "";
  Return (sRet +:+ append).

(** ** The Effect class *)

(** A tuple's [t[0]] and [t[1]], as [Effect.__init__] reads them. *)
Definition tuple_index_error {A} : result A :=
  Raise IndexError [PStr "tuple index out of range"].

Definition code_msg (c m : pyval) : pyval := PDict [("code", c); ("msg", m)].

(** The [error] branch of [Effect.__init__]: what ends up in [self.error]. *)
Definition normalize_error (error : pyval) : result pyval :=
  match error with
  | PInt _ | PBool _ => Return (code_msg error (PStr ""))
  | PStr _ => Return (code_msg (PInt 0) error)
  | PTuple l =>
      match l with
      | c :: m :: _ => Return (code_msg c m)
      | _ => tuple_index_error
      end
  | PDict _ => Return error
  | PExc _ args =>
      match args with
      | [] => tuple_index_error
      | PEffect inner :: _ =>
          match e_error inner with
          | Some x => Return x
          | None =>
              Raise AttributeError
                [PStr "'Effect' object has no attribute 'error'"]
          end
      | a :: rest =>
          match rest with
          | [] => Return (code_msg a (PStr ""))
          | _ => Raise NameError [PStr "name 'dErr' is not defined"]
          end
      end
  | PNone | PBytes _ | PList _ | PEffect _ | PObj _ =>
      Raise ValueError [PStr "error"]
  end.

Definition given (v : pyval) : option pyval :=
  match v with PNone => None | _ => Some v end.

(** [Effect(data, error, warning)]; an argument left out is [None]. *)
Definition Effect_init (data error warning : pyval) : result Effect :=
  err ← match error with
        | PNone => Return None
        | _ => x ← normalize_error error; Return (Some x)
        end;
  Return (mkEffect (given data) err (given warning)).

(** The dict [dRet] that [Effect.__str__] fills. *)
Definition Effect_dRet (e : Effect) : list (string * pyval) :=
  let dRet := [] in
  let dRet := match e_data e with
              | Some v => dict_set dRet "data" v | None => dRet end in
  let dRet := match e_error e with
              | Some v => dict_set dRet "error" v | None => dRet end in
  match e_warning e with
  | Some v => dict_set dRet "warning" v | None => dRet end.

(** [Effect.__str__] *)
Definition Effect_str (e : Effect) : result string :=
  Json.dumps (PDict (Effect_dRet e)).

Definition exists_not_none (a : option pyval) : bool :=
  match a with
  | Some PNone | None => false
  | Some _ => true
  end.

Definition Effect_dataExists (e : Effect) : bool := exists_not_none (e_data e).
Definition Effect_errorExists (e : Effect) : bool := exists_not_none (e_error e).
Definition Effect_warningExists (e : Effect) : bool :=
  exists_not_none (e_warning e).

(** [Effect.fromDict(val)]: [val['data']] and the like raise KeyError on a
    dict without the key, which is passed over, and TypeError on a value
    that is not a dict, which is not. *)
Definition Effect_fromDict (val : pyval) : result Effect :=
  match val with
  | PDict d =>
      Return (mkEffect (dict_get d "data") (dict_get d "error")
                       (dict_get d "warning"))
  | PObj _ => Unmodelled
  | _ => Raise TypeError []
  end.

(** [Effect.fromJSON(val)] for a [str].  The decoder's own message, the
    second argument of the ValueError raised, is left out. *)
Definition Effect_fromJSON (val : string) : result Effect :=
  d ← try_except (Json.loads val) ValueError
        (fun _ => Raise ValueError [PStr "val"]);
  Effect_fromDict d.

(** [EffectException(data, error, warning)]: the exception built around a
    fresh Effect. *)
Definition EffectException_init (data error warning : pyval) : result pyval :=
  e ← Effect_init data error warning;
  Return (PExc EffectException [PEffect e]).

(** ** Collaborators *)

(** The error-code table of the [Errors] module. *)
Record ErrorCodes := {
  SERVICE_ACTION : Z;
  SERVICE_STATUS : Z;
  SERVICE_CONTENT_TYPE : Z;
  SERVICE_UNREACHABLE : Z;
  SERVICE_NOT_REGISTERED : Z;
  SERVICE_NO_SUCH_NOUN : Z
}.

(** A session: all the router asks of it is [id()]. *)
Record Sesh := { sesh_id : string }.

(** What a subclass of [Service] adds: the methods the paths resolve to,
    each taking the data and, when a session came with the call, the
    session; and its [initialise], given [self].  These run without touching
    the router's globals. *)
Record ServiceDef := {
  svc_initialise : oid -> result pyval;
  svc_method : string -> option (pyval -> option Sesh -> result pyval)
}.

(** [Service.initialise] of the base class returns [self]. *)
Definition Service_initialise (self : oid) : result pyval := Return (PObj self).

(** An HTTP exchange through [requests]. *)
Record Request := {
  req_verb : string;
  req_url : string;
  req_data : string;
  req_headers : list (string * string)
}.

Record Response := {
  status_code : Z;
  content : string;
  text : string;
  headers : list (string * string)
}.

Inductive reply :=
  | Responds (oRes : Response)
  | Refused (msg : string).

(** Header names compare without regard to case. *)
Fixpoint lower_name (s : string) : string :=
  match s with
  | EmptyString => EmptyString
  | String c r => String (Py.lower_char c) (lower_name r)
  end.

Fixpoint header_get (hs : list (string * string)) (name : string)
    : option string :=
  match hs with
  | [] => None
  | (k, v) :: r =>
      if String.eqb (lower_name k) (lower_name name) then Some v
      else header_get r name
  end.

(** ** Module state *)

Inductive registration :=
  | Instance (v : oid)
  | Url (url : string).

Record state := {
  __mbVerbose : bool;
  __mdRegistered : gmap string registration;
  __msSalt : option string
}.

Definition initial : state :=
  {| __mbVerbose := false; __mdRegistered := ∅; __msSalt := None |}.

Definition set_salt (salt : string) (st : state) : state :=
  {| __mbVerbose := __mbVerbose st;
     __mdRegistered := __mdRegistered st;
     __msSalt := Some salt |}.

Definition set_registered (k : string) (r : registration) (st : state) : state :=
  {| __mbVerbose := __mbVerbose st;
     __mdRegistered := <[k := r]> (__mdRegistered st);
     __msSalt := __msSalt st |}.

Definition verbose (flag : bool) (st : state) : state :=
  {| __mbVerbose := flag;
     __mdRegistered := __mdRegistered st;
     __msSalt := __msSalt st |}.

Definition __funcToRequest (action : string) : option string :=
  if String.eqb action "create" then Some "POST"
  else if String.eqb action "delete" then Some "DELETE"
  else if String.eqb action "read" then Some "GET"
  else if String.eqb action "update" then Some "PUT"
  else None.

Section Router.

Context (Errors : ErrorCodes).
Context (objects : gmap oid ServiceDef).
Context (transport : Request -> reply).

(** *** The Service class: dispatch by action *)

(** [Service.create], [.delete], [.read] and [.update] differ in the suffix
    given to [pathToMethod] and in the verb named in the error. *)
Definition Service_dispatch (suffix verb : string) (self : ServiceDef)
    (path : string) (data : pyval) (sesh : option Sesh) : result pyval :=
  sMethod ← pathToMethod path suffix;
  match svc_method self sMethod with
  | None =>
      e ← Effect_init PNone
            (PTuple [PInt (SERVICE_NO_SUCH_NOUN Errors);
                     PStr (verb +:+ " " +:+ path)]) PNone;
      Return (PEffect e)
  | Some f =>
      try_except (f data sesh) EffectException
        (fun args =>
           match args with
           | a :: _ => Return a
           | [] => tuple_index_error
           end)
  end.

Definition Service_create := Service_dispatch "_create" "POST".
Definition Service_delete := Service_dispatch "_delete" "DELETE".
Definition Service_read := Service_dispatch "_read" "GET".
Definition Service_update := Service_dispatch "_update" "PUT".

(** [getattr(instance, action)(path, data, sesh)] on a Service instance.
    An [action] other than the four names some other attribute of the
    instance, or none. *)
Definition call_action (v : oid) (action path : string) (data : pyval)
    (sesh : option Sesh) : result pyval :=
  match objects !! v with
  | None => Unmodelled
  | Some self =>
      if String.eqb action "create" then Service_create self path data sesh
      else if String.eqb action "delete" then Service_delete self path data sesh
      else if String.eqb action "read" then Service_read self path data sesh
      else if String.eqb action "update" then Service_update self path data sesh
      else Unmodelled
  end.

(** *** The router *)

Definition key_error {A} (k : string) : result A := Raise KeyError [PStr k].

(** [__funcToRequest[action]] *)
Definition func_for (action : string) : result string :=
  match __funcToRequest action with
  | Some verb => Return verb
  | None => key_error action
  end.

(** [str(v)] in the verbose lines, which print [str(data)] before the
    call and [str(oEffect)] after it: the text is printed and not kept, so
    what is modelled is whether [str] raises.  An Effect goes through
    [Effect.__str__], which can raise.  An exception with one argument is
    written with the [str] of that argument (KeyError: with its [repr]);
    a ConnectionError with two to five arguments is an [OSError] with an
    errno and a message, both written with [str]; any other exception is
    written with the [repr] of its arguments.  Plain data, containers
    (which write their items with [repr]) and objects that keep
    [object.__str__], as [Service] does, never raise. *)
Fixpoint str_for_print (v : pyval) : result unit :=
  match v with
  | PEffect e => _ ← Effect_str e; Return tt
  | PExc cls args =>
      match args with
      | [a] =>
          match cls with
          | KeyError => Return tt
          | _ => str_for_print a
          end
      | a :: b :: more =>
          match cls with
          | ConnectionError =>
              if (length more <=? 3)%nat
              then _ ← str_for_print a; str_for_print b
              else Return tt
          | _ => Return tt
          end
      | [] => Return tt
      end
  | _ => Return tt
  end.

Definition error_effect (c : Z) (msg : string) : result pyval :=
  e ← Effect_init PNone (PTuple [PInt c; PStr msg]) PNone;
  Return (PEffect e).

(** The headers of the outgoing request: [dHeaders], with the session's
    id when a session came with the call. *)
Definition request_headers (sData : string) (sesh : option Sesh)
    : list (string * string) :=
  let dHeaders :=
    [("Content-Type", "application/json; charset=utf-8");
     ("Content-Length", Py.str_int (Py.len sData))] in
  match sesh with
  | Some s => dict_set dHeaders "Authorization" (sesh_id s)
  | None => dHeaders
  end.

(** The remote branch of [__request].  [inl] is a [return] from inside
    the branch, [inr] the value left in [oEffect] at its end. *)
Definition request_remote (st : state) (url action path : string)
    (data : pyval) (sesh : option Sesh) : result (pyval + pyval) :=
  (* try: __funcToRequest[action] / except KeyError: Effect(...) *)
  _ ← try_except (_ ← func_for action; Return tt) KeyError
        (fun _ => _ ← error_effect (SERVICE_ACTION Errors) action; Return tt);
  let sURL := url +:+ path in
  (* the verbose line reads __funcToRequest[action][1], then str(data) *)
  _ ← (if __mbVerbose st
       then _ ← func_for action; str_for_print data
       else Return tt);
  sData ← Json.dumps data;
  let dHeaders := request_headers sData sesh in
  verb ← func_for action;
  match transport {| req_verb := verb; req_url := sURL;
                     req_data := sData; req_headers := dHeaders |} with
  | Refused msg =>
      e ← error_effect (SERVICE_UNREACHABLE Errors) msg; Return (inl e)
  | Responds oRes =>
      if negb (status_code oRes =? 200) then
        e ← error_effect (SERVICE_STATUS Errors)
              (Py.str_int (status_code oRes) +:+ ": "
               +:+ Py.str_bytes (content oRes));
        Return (inl e)
      else
        match header_get (headers oRes) "Content-Type" with
        | None => key_error "content-type"
        | Some ct =>
            lct ← Py.lower ct;
            if negb (String.eqb lct "application/json; charset=utf-8") then
              e ← error_effect (SERVICE_CONTENT_TYPE Errors) ct;
              Return (inl e)
            else
              e ← Effect_fromJSON (text oRes);
              Return (inr (PEffect e))
        end
  end.

(** [__request(service, action, path, data, sesh)] *)
Definition __request (st : state) (service action path : string)
    (data : pyval) (sesh : option Sesh) : result pyval :=
  match __mdRegistered st !! service with
  | Some reg =>
      r ← match reg with
          | Instance v =>
              _ ← (if __mbVerbose st then str_for_print data else Return tt);
              oEffect ← call_action v action path data sesh;
              Return (inr oEffect)
          | Url url => request_remote st url action path data sesh
          end;
      match r with
      | inl e => Return e
      | inr oEffect =>
          _ ← (if __mbVerbose st then str_for_print oEffect else Return tt);
          Return oEffect
      end
  | None =>
      x ← EffectException_init PNone
            (PTuple [PInt (SERVICE_NOT_REGISTERED Errors); PStr service])
            PNone;
      match x with
      | PExc cls args => Raise cls args
      | _ => Unmodelled
      end
  end.

Definition create st service path data sesh :=
  __request st service "create" path data sesh.
Definition delete st service path data sesh :=
  __request st service "delete" path data sesh.
Definition read st service path data sesh :=
  __request st service "read" path data sesh.
Definition update st service path data sesh :=
  __request st service "update" path data sesh.

(** *** Registration *)

Definition value_error {A} (msg : string) : result A :=
  Raise ValueError [PStr msg].

(** The [for k, v in services.items()] loop of [register]. *)
Fixpoint register_loop (items : list (string * pyval))
    (restconf : gmap string (gmap string string)) (st : state)
    : state * result unit :=
  match items with
  | [] => (st, Return tt)
  | (k, v) :: rest =>
      match v with
      | PObj o =>
          match objects !! o with
          | Some self =>
              let st' := set_registered k (Instance o) st in
              match svc_initialise self o with
              | Return _ => register_loop rest restconf st'
              | Raise cls args => (st', Raise cls args)
              | Unmodelled => (st', Unmodelled)
              end
          | None => (st, value_error ("services." +:+ k))
          end
      | PNone =>
          match restconf !! k with
          | None => (st, value_error ("services." +:+ k))
          | Some conf =>
              match conf !! "url" with
              | Some url =>
                  register_loop rest restconf (set_registered k (Url url) st)
              | None => (st, key_error "url")
              end
          end
      | _ => (st, value_error ("services." +:+ k))
      end
  end.

(** [register(services, restconf, salt)] *)
Definition register (services : pyval)
    (restconf : gmap string (gmap string string)) (salt : string)
    (st : state) : state * result unit :=
  let st := set_salt salt st in
  match services with
  | PDict items => register_loop items restconf st
  | _ => (st, value_error "services")
  end.

End Router.

(** ** The internal key *)

(** [sha1(sTime[5:].encode() + __msSalt.encode() + sTime[:5].encode())
    .hexdigest()]; a salt never set is [None], which has no [encode]. *)
Definition key_digest (salt : option string) (sTime : string) : result string :=
  let tail := Py.encode_utf8 (Py.slice_from 5 sTime) in
  match salt with
  | None =>
      Raise AttributeError [PStr "'NoneType' object has no attribute 'encode'"]
  | Some s =>
      Return (Sha1.hexdigest
                (tail +:+ Py.encode_utf8 s
                 +:+ Py.encode_utf8 (Py.slice_to 5 sTime)))
  end.

(** The [try] block of the validating branch. *)
Definition key_check (st : state) (iTime : Z) (key : string) : result pyval :=
  match Py.split ":" key with
  | [sSHA1_; sTime] =>
      match Py.int_of_str sTime with
      | None => value_error "invalid literal for int() with base 10"
      | Some t =>
          if iTime - t >? 5 then Return (PBool false)
          else
            sSHA1 ← key_digest (__msSalt st) sTime;
            Return (PBool (String.eqb sSHA1 sSHA1_))
      end
  | _ => value_error "wrong number of values to unpack"
  end.

(** [internalKey(key)] when [int(time())] is [iTime].  Without a key it
    makes one; with a key it checks it, and whatever goes wrong there is
    answered with [False]. *)
Definition internalKey (st : state) (iTime : Z) (key : pyval) : result pyval :=
  match key with
  | PNone =>
      let sTime := Py.str_int iTime in
      sSHA1 ← key_digest (__msSalt st) sTime;
      Return (PStr (sSHA1 +:+ ":" +:+ sTime))
  | PStr k =>
      match key_check st iTime k with
      | Raise _ _ => Return (PBool false)
      | r => r
      end
  | PObj _ => Unmodelled
  | _ => Return (PBool false)
  end.

(** * Vocabulary of the statements *)

(** ** Paths *)




(** The length of the run of separators that ends the path. *)
Fixpoint trailing_separators (path : string) : nat :=
  match path with
  | EmptyString => O
  | String c r =>
      if is_separator c && Py.all_chars is_separator r
      then S (trailing_separators r) else trailing_separators r
  end.

(** ** Values *)

(** The values that [json.dumps] writes and [json.loads] reads back as they
    were: [None], booleans, ints, strings, lists of such values and dicts of
    such values (a tuple is written, but read back as a list). *)
Fixpoint json_ok (v : pyval) : bool :=
  match v with
  | PNone | PBool _ | PInt _ | PStr _ => true
  | PList l => forallb json_ok l
  | PDict d =>
      bool_decide (NoDup d.*1) && forallb (fun kv => json_ok (snd kv)) d
  | _ => false
  end.

Definition field_ok (a : option pyval) : bool :=
  match a with Some v => json_ok v | None => true end.

(** An Effect whose attributes, where set, hold such values. *)
Definition Effect_json_ok (e : Effect) : bool :=
  field_ok (e_data e) && field_ok (e_error e) && field_ok (e_warning e).

(** How much recursion the decoder needs to read a value back. *)
Fixpoint scan_size (v : pyval) : nat :=
  match v with
  | PList l => S (list_sum (map (fun x => S (scan_size x)) l))
  | PDict d => S (list_sum (map (fun kv => S (scan_size (snd kv))) d))
  | _ => 1%nat
  end.

(** A value's text is followed by the end of the input or by a delimiter. *)
Definition value_end (rest : string) : bool :=
  match rest with
  | EmptyString => true
  | String c _ =>
      Ascii.eqb c ","%char || Ascii.eqb c "]"%char || Ascii.eqb c "}"%char
  end.

(** The first character of a value's text: not white space, and neither of
    the closing brackets. *)
Definition value_start (s : string) : bool :=
  match s with
  | EmptyString => false
  | String c _ =>
      negb (Json.is_ws c) && negb (Ascii.eqb c "]"%char)
      && negb (Ascii.eqb c "}"%char)
  end.

Definition not_an_effect (v : pyval) : bool :=
  match v with PEffect _ => false | _ => true end.

(** ** Character classes *)

Definition digit_or_minus (c : ascii) : bool :=
  Py.is_digit c || Ascii.eqb c "-"%char.

Definition is_hex_digit (c : ascii) : bool :=
  Py.is_digit c || ((97 <=? Py.code c) && (Py.code c <=? 102)).

(** The text [s] of the value [v] is read back as [v]: it starts like a
    value, it is long enough for the recursion [loads] allows, and the
    decoder, given that much recursion, returns [v] and what follows. *)
Definition reads_back (v : pyval) (s : string) : Prop :=
  value_start s = true
  /\ (scan_size v <= 2 * String.length s)%nat
  /\ forall fuel rest,
       (scan_size v <= fuel)%nat -> value_end rest = true ->
       Json.scan_value fuel (s +:+ rest) = Return (v, rest).

Definition items_size (l : list pyval) : nat :=
  list_sum (map (fun x => S (scan_size x)) l).

Definition members_size (d : list (string * pyval)) : nat :=
  list_sum (map (fun kv => S (scan_size (snd kv))) d).

(** ** Registration, binding by binding *)

Section Bindings.

Context (objects : gmap oid ServiceDef).
Context (restconf : gmap string (gmap string string)).

(** What the binding of [k] to [v] stores when the loop gets past it. *)
Definition binding_entry (k : string) (v : pyval) : option registration :=
  match v with
  | PObj o =>
      match objects !! o with
      | Some self =>
          match svc_initialise self o with
          | Return _ => Some (Instance o)
          | _ => None
          end
      | None => None
      end
  | PNone =>
      match restconf !! k with
      | Some conf =>
          match conf !! "url" with
          | Some url => Some (Url url)
          | None => None
          end
      | None => None
      end
  | _ => None
  end.

(** The bindings [register] turns down itself: a name bound to [None]
    with nothing in the configuration, and a value that is neither [None]
    nor a Service. *)
Definition binding_rejected (k : string) (v : pyval) : bool :=
  match v with
  | PNone => bool_decide (restconf !! k = None)
  | PObj o => bool_decide (objects !! o = None)
  | _ => true
  end.

Definition bindings_state (pre : list (string * pyval)) (st : state) : state :=
  fold_left
    (fun st kv =>
       match binding_entry (fst kv) (snd kv) with
       | Some r => set_registered (fst kv) r st
       | None => st
       end) pre st.

End Bindings.

(** * Examples *)

Module Example.

Definition codes : ErrorCodes :=
  {| SERVICE_ACTION := 1000; SERVICE_STATUS := 1001;
     SERVICE_CONTENT_TYPE := 1002; SERVICE_UNREACHABLE := 1003;
     SERVICE_NOT_REGISTERED := 1004; SERVICE_NO_SUCH_NOUN := 1005 |}.

Definition answer (s : string) : pyval :=
  PEffect (mkEffect (Some (PStr s)) None None).

Definition ping_read (s : string) (m : string)
    : option (pyval -> option Sesh -> result pyval) :=
  if String.eqb m "ping_read" then Some (fun _ _ => Return (answer s))
  else None.

(** A handler that keeps the base class's [initialise]. *)
Definition plain : ServiceDef :=
  {| svc_initialise := Service_initialise; svc_method := ping_read "plain" |}.

(** A handler whose [initialise] hands back another object, number 3,
    in its place. *)
Definition wrapping : ServiceDef :=
  {| svc_initialise := fun _ => Return (PObj 3%positive);
     svc_method := ping_read "wrapped" |}.

Definition wrapper : ServiceDef :=
  {| svc_initialise := Service_initialise; svc_method := ping_read "wrapper" |}.

Definition objects : gmap oid ServiceDef :=
  {[ 1%positive := plain; 2%positive := wrapping; 3%positive := wrapper ]}.

Definition restconf : gmap string (gmap string string) :=
  {[ "mail" := {[ "url" := "http://mail.local" ]} ]}.

(** The peer answers 500 with the body [boom]. *)
Definition boom (_ : Request) : reply :=
  Responds {| status_code := 500; content := "boom"; text := "boom";
              headers := [("Content-Type", "text/plain")] |}.

(** The peer answers 200 and announces JSON, but the body is not JSON. *)
Definition garbled (_ : Request) : reply :=
  Responds {| status_code := 200; content := "<html>"; text := "<html>";
              headers := [("Content-Type", "application/json; charset=utf-8")] |}.

(** The process after [register({'auth': plain, 'mail': None}, ...)]. *)
Definition started : state :=
  fst (register objects
         (PDict [("auth", PObj 1%positive); ("mail", PNone)])
         restconf "s3cret" initial).

End Example.


(** * More of the module: vocabulary and examples *)

Definition is_none (v : pyval) : bool :=
  match v with PNone => true | _ => false end.

(** A character that is not a separator of [pathToMethod]. *)
Definition is_plain (c : ascii) : bool := negb (is_separator c).

(** A computation that returns or raises TypeError, as [json.dumps] does. *)
Definition writes_or_TypeError {A} (c : result A) : Prop :=
  (exists a, c = Return a) \/ c = Raise TypeError [].

(** The request that [__request] hands to [requests] for a remote call. *)
Definition outgoing (verb url path sData : string) (sesh : option Sesh)
    : Request :=
  {| req_verb := verb; req_url := url +:+ path; req_data := sData;
     req_headers := request_headers sData sesh |}.

(** The Effect that stands for an error with a code and a message. *)
Definition failure (c : Z) (msg : string) : pyval :=
  PEffect (mkEffect None (Some (PDict [("code", PInt c); ("msg", PStr msg)]))
                    None).

Module Example2.

(** A handler with three nouns under [read]: one answers, one raises an
    EffectException, one raises something else. *)
Definition moody_method (m : string)
    : option (pyval -> option Sesh -> result pyval) :=
  if String.eqb m "ping_read" then
    Some (fun _ _ => Return (Example.answer "pong"))
  else if String.eqb m "userPermission_read" then
    Some (fun _ _ =>
            Raise EffectException
              [PEffect (mkEffect None
                 (Some (PDict [("code", PInt 7); ("msg", PStr "denied")]))
                 None)])
  else if String.eqb m "crash_read" then
    Some (fun _ _ => Raise ValueError [PStr "broken"])
  else if String.eqb m "raw_read" then
    Some (fun _ _ =>
            Return (PEffect (mkEffect (Some (PBytes "raw")) None None)))
  else None.

Definition moody : ServiceDef :=
  {| svc_initialise := Service_initialise; svc_method := moody_method |}.

(** A handler whose [initialise] raises. *)
Definition stillborn : ServiceDef :=
  {| svc_initialise := fun _ => Raise ValueError [PStr "no database"];
     svc_method := fun _ => None |}.

Definition objects : gmap oid ServiceDef :=
  {[ 1%positive := moody; 2%positive := stillborn ]}.

Definition restconf : gmap string (gmap string string) :=
  {[ "mail" := {[ "url" := "http://mail.local" ]};
     "sms" := {[ "host" := "sms.local" ]} ]}.

Definition started : state :=
  fst (register objects
         (PDict [("auth", PObj 1%positive); ("mail", PNone)])
         restconf "s3cret" initial).

Definition json_type : string := "application/json; charset=utf-8".

(** The peer cannot be reached. *)
Definition down (_ : Request) : reply := Refused "connection refused".

(** The peer answers 200 with a page of HTML. *)
Definition page (_ : Request) : reply :=
  Responds {| status_code := 200; content := "<html>"; text := "<html>";
              headers := [("content-type", "Text/HTML")] |}.

(** The peer answers 200 without saying what the body is. *)
Definition untyped (_ : Request) : reply :=
  Responds {| status_code := 200; content := "{}"; text := "{}";
              headers := [("Server", "nginx")] |}.

Definition pong : Effect := mkEffect (Some (PStr "pong")) None None.

Definition pong_text : string :=
  "{" +:+ Json.quote "data" +:+ ": " +:+ Json.quote "pong" +:+ "}".

(** The peer answers 200 with an Effect as JSON, and spells the content
    type in capitals. *)
Definition well (_ : Request) : reply :=
  Responds {| status_code := 200; content := pong_text; text := pong_text;
              headers := [("Content-Type", "Application/JSON; Charset=UTF-8")] |}.

(** A transport that answers only the one GET it expects. *)
Definition strict (r : Request) : reply :=
  if String.eqb (req_verb r) "GET"
     && String.eqb (req_url r) "http://mail.local/inbox"
     && String.eqb (req_data r) "{}"
     && bool_decide (req_headers r
                     = [("Content-Type", json_type);
                        ("Content-Length", "2");
                        ("Authorization", "abc123")])
  then well r else down r.

End Example2.


(** * Proofs *)

#[local] Arguments String.append !s1 s2 : simpl nomatch.

(** ** Path to method *)

Lemma append_nil_r (s : string) : s +:+ "" = s.
Proof. induction s as [|c s IH]; simpl; [reflexivity | now rewrite IH]. Qed.

Lemma append_assoc (a b c : string) : (a +:+ b) +:+ c = a +:+ (b +:+ c).
Proof. induction a as [|x a IH]; simpl; [reflexivity | now rewrite IH]. Qed.


Lemma upper_ascii c : Py.is_ascii c = true ->
  Py.upper c = Return (String (Py.upper_char c) EmptyString).
Proof. intros H. unfold Py.upper. now rewrite H. Qed.






(** Two leading characters, the first a separator, leave the parity of the
    closing run of separators as it is in what follows them. *)
Lemma trailing_separators_skip (c d : ascii) (r : string) :
  is_separator c = true ->
  Nat.odd (trailing_separators (String c (String d r)))
  = Nat.odd (trailing_separators r).
Proof.
  intros Hc. cbn [trailing_separators Py.all_chars]. rewrite Hc.
  destruct (is_separator d && Py.all_chars is_separator r) eqn:E.
  - cbn [andb]. now rewrite Nat.odd_succ, Nat.even_succ.
  - reflexivity.
Qed.

Lemma trailing_separators_plain (c : ascii) (r : string) :
  is_separator c = false ->
  trailing_separators (String c r) = trailing_separators r.
Proof. intros Hc. cbn [trailing_separators]. now rewrite Hc. Qed.

(** On any ASCII path the call raises IndexError exactly when the run of
    separators that ends the path has odd length, and returns a name
    otherwise: the separators of the run are taken two by two, the first
    dropped and the second written out. *)
Lemma pathToMethod_loop_outcome (n : nat) : forall path sRet,
  (String.length path <= n)%nat ->
  Py.ascii_only path = true ->
  if Nat.odd (trailing_separators path)
  then pathToMethod_loop path sRet
       = Raise IndexError [PStr "string index out of range"]
  else exists name, pathToMethod_loop path sRet = Return name.
Proof.
  induction n as [|n IH]; intros path sRet Hlen Hasc.
  - destruct path; [| simpl in Hlen; lia]. simpl. eauto.
  - destruct path as [|c rest]; [simpl; eauto|].
    simpl in Hlen. unfold Py.ascii_only in Hasc. cbn [Py.all_chars] in Hasc.
    apply andb_prop in Hasc as [Hc Hrest].
    cbn [pathToMethod_loop]. destruct (is_separator c) eqn:Ec.
    + destruct rest as [|d rest'].
      { cbn [trailing_separators Py.all_chars]. rewrite Ec. reflexivity. }
      cbn [Py.all_chars] in Hrest. apply andb_prop in Hrest as [Hd Hrest'].
      rewrite (trailing_separators_skip c d rest' Ec).
      rewrite (upper_ascii d Hd). cbn [mbind result_mbind result_bind].
      apply IH; [simpl in Hlen; lia | exact Hrest'].
    + rewrite (trailing_separators_plain c rest Ec).
      apply IH; [lia | exact Hrest].
Qed.

Lemma pathToMethod_raises_iff (path append : string) :
  Py.ascii_only path = true ->
  (pathToMethod path append
   = Raise IndexError [PStr "string index out of range"]
   <-> Nat.odd (trailing_separators path) = true)
  /\ ((exists name, pathToMethod path append = Return name)
      <-> Nat.odd (trailing_separators path) = false).
Proof.
  intros Hasc. unfold pathToMethod.
  pose proof (pathToMethod_loop_outcome _ path "" (le_n _) Hasc) as H.
  destruct (Nat.odd (trailing_separators path)).
  - rewrite H. cbn. split; split; try tauto; try discriminate.
    intros [name Hn]. discriminate Hn.
  - destruct H as [name ->]. cbn. split; split; try discriminate; eauto.
Qed.


(** ** The Effect constructor *)

(** C2 (as amended).  The error argument of the constructor is normalized
    shape by shape: an int [n] gives code [n] with an empty message, a str
    [s] gives code 0 with message [s], a tuple of two items or more gives
    its first two items, a dict is stored as it is, an exception whose first
    argument is an Effect with an error passes that error on unchanged.  An
    exception with a single argument that is not an Effect is accepted too
    and gives that argument as the code with an empty message.  A value that
    is none of these (bytes, a list, an Effect, another object) fails with
    ValueError('error'). *)
Theorem Effect_init_error_shapes (data warning : pyval) :
  let built x := Return (mkEffect (given data) (Some x) (given warning)) in
  (forall n, Effect_init data (PInt n) warning
             = built (PDict [("code", PInt n); ("msg", PStr "")]))
  /\ (forall s, Effect_init data (PStr s) warning
                = built (PDict [("code", PInt 0); ("msg", PStr s)]))
  /\ (forall c m more, Effect_init data (PTuple (c :: m :: more)) warning
                       = built (PDict [("code", c); ("msg", m)]))
  /\ (forall d, Effect_init data (PDict d) warning = built (PDict d))
  /\ (forall cls inner more x,
        e_error inner = Some x ->
        Effect_init data (PExc cls (PEffect inner :: more)) warning = built x)
  /\ (forall cls a,
        not_an_effect a = true ->
        Effect_init data (PExc cls [a]) warning
        = built (PDict [("code", a); ("msg", PStr "")]))
  /\ (forall b, Effect_init data (PBytes b) warning
                = Raise ValueError [PStr "error"])
  /\ (forall l, Effect_init data (PList l) warning
                = Raise ValueError [PStr "error"])
  /\ (forall e, Effect_init data (PEffect e) warning
                = Raise ValueError [PStr "error"])
  /\ (forall o, Effect_init data (PObj o) warning
                = Raise ValueError [PStr "error"]).
Proof.
  cbv zeta. repeat split; intros; try reflexivity.
  - unfold Effect_init, normalize_error. rewrite H. reflexivity.
  - destruct a; try discriminate; reflexivity.
Qed.

Lemma Effect_init_error_shapes_witness :
  Effect_init PNone
    (PExc EffectException
       [PEffect (mkEffect None (Some (code_msg (PInt 7) (PStr "gone"))) None)])
    PNone
  = Return (mkEffect None (Some (code_msg (PInt 7) (PStr "gone"))) None)
  /\ Effect_init PNone (PExc ValueError [PStr "bad"]) PNone
     = Return (mkEffect None (Some (code_msg (PStr "bad") (PStr ""))) None).
Proof.
  destruct (Effect_init_error_shapes PNone PNone)
    as (_ & _ & _ & _ & Hexc & Hone & _).
  split.
  - exact (Hexc EffectException
             (mkEffect None (Some (code_msg (PInt 7) (PStr "gone"))) None)
             [] (code_msg (PInt 7) (PStr "gone")) eq_refl).
  - exact (Hone ValueError (PStr "bad") eq_refl).
Defined.

(** C2 (counterexample).  An exception that wraps no Effect is none of the
    five shapes, and the constructor does not fail on it. *)
Lemma Effect_init_plain_exception :
  Effect_init PNone (PExc Exception [PStr "oops"]) PNone
  = Return (mkEffect None
              (Some (PDict [("code", PStr "oops"); ("msg", PStr "")])) None).
Proof. reflexivity. Qed.


(** ** Decimal text *)

Lemma code_chr (z : Z) : 0 <= z < 256 -> Py.code (Py.chr z) = z.
Proof.
  intros H. unfold Py.code, Py.chr.
  rewrite N_ascii_embedding by lia. lia.
Qed.

Lemma chr_code (c : ascii) : Py.chr (Py.code c) = c.
Proof.
  unfold Py.code, Py.chr. rewrite N2Z.id. apply ascii_N_embedding.
Qed.

Lemma code_range (c : ascii) : 0 <= Py.code c < 256.
Proof.
  unfold Py.code. pose proof (N_ascii_bounded c). lia.
Qed.

Lemma code_digit_char (d : Z) : 0 <= d < 10 -> Py.code (Py.digit_char d) = 48 + d.
Proof. intros H. unfold Py.digit_char. apply code_chr. lia. Qed.

Lemma is_digit_digit_char (d : Z) :
  0 <= d < 10 -> Py.is_digit (Py.digit_char d) = true.
Proof.
  intros H. unfold Py.is_digit. rewrite code_digit_char by lia.
  apply andb_true_intro. split; apply Z.leb_le; lia.
Qed.

(** What [str_digits] writes in front of [acc]: digits only, at least one,
    no leading zero unless the number is zero, and they read back as [n]. *)
Lemma str_digits_spec (fuel : nat) : forall n acc,
  0 <= n < 2 ^ Z.of_nat fuel -> (0 < fuel)%nat ->
  exists ds,
    Py.str_digits fuel n acc = ds +:+ acc
    /\ Py.all_chars Py.is_digit ds = true
    /\ (exists c r, ds = String c r /\ (0 < n -> Py.code c <> 48))
    /\ (forall a, Json.digits_value ds a = a * 10 ^ Z.of_nat (String.length ds) + n).
Proof.
  induction fuel as [|f IH]; intros n acc Hn Hf; [lia|].
  cbn [Py.str_digits].
  assert (Hmod : 0 <= n mod 10 < 10) by (apply Z.mod_pos_bound; lia).
  destruct (n <? 10) eqn:E.
  - apply Z.ltb_lt in E.
    exists (String (Py.digit_char (n mod 10)) EmptyString).
    rewrite Z.mod_small in * by lia.
    repeat split.
    + simpl. now rewrite is_digit_digit_char by lia.
    + eexists _, _. split; [reflexivity|].
      intros Hpos. rewrite code_digit_char by lia. lia.
    + intros a. simpl. rewrite code_digit_char by lia. lia.
  - apply Z.ltb_ge in E.
    assert (Hdiv : 0 < n / 10) by (apply Z.div_str_pos; lia).
    assert (Hf' : (0 < f)%nat).
    { destruct f; [|lia]. simpl in Hn. lia. }
    assert (Hb : 0 <= n / 10 < 2 ^ Z.of_nat f).
    { split; [lia|].
      replace (Z.of_nat (S f)) with (Z.of_nat f + 1) in Hn by lia.
      rewrite Z.pow_add_r, Z.pow_1_r in Hn by lia.
      apply Z.div_lt_upper_bound; lia. }
    destruct (IH (n / 10) (String (Py.digit_char (n mod 10)) acc) Hb Hf')
      as (ds & Heq & Hall & (c & r & Hds & Hlead) & Hval).
    exists (ds +:+ String (Py.digit_char (n mod 10)) EmptyString).
    repeat split.
    + rewrite Heq. clear. induction ds as [|x ds IHd]; simpl; [reflexivity|].
      now rewrite IHd.
    + clear - Hall Hmod. induction ds as [|x ds IHd]; simpl in *.
      * now rewrite is_digit_digit_char by lia.
      * apply andb_prop in Hall as [-> Hall]. simpl. auto.
    + subst ds. eexists _, _. split; [reflexivity|].
      intros _. apply Hlead. lia.
    + intros a.
      assert (Happ : forall s t b, Json.digits_value (s +:+ t) b
                     = Json.digits_value t (Json.digits_value s b)).
      { clear. induction s as [|x s IHs]; intros t b; simpl; [reflexivity|].
        apply IHs. }
      rewrite Happ, Hval. simpl. rewrite code_digit_char by lia.
      assert (Hlen : String.length (ds +:+ String (Py.digit_char (n mod 10)) "")
                     = S (String.length ds)).
      { clear. induction ds as [|x ds IHd]; simpl; [reflexivity|]. now rewrite IHd. }
      rewrite Hlen, Nat2Z.inj_succ, Z.pow_succ_r by lia.
      pose proof (Z.div_mod n 10 ltac:(lia)). nia.
Qed.

Lemma str_nat_spec (n : Z) : 0 <= n ->
  exists ds,
    Py.str_nat n = ds
    /\ Py.all_chars Py.is_digit ds = true
    /\ (exists c r, ds = String c r /\ (0 < n -> Py.code c <> 48))
    /\ (forall a, Json.digits_value ds a = a * 10 ^ Z.of_nat (String.length ds) + n).
Proof.
  intros Hn. unfold Py.str_nat.
  assert (Hb : 0 <= n < 2 ^ Z.of_nat (S (Z.to_nat (Z.log2 n)))).
  { split; [lia|].
    rewrite Nat2Z.inj_succ, Z2Nat.id by apply Z.log2_nonneg.
    destruct (Z.eq_dec n 0) as [->|Hne]; [reflexivity|].
    apply Z.log2_spec. lia. }
  destruct (str_digits_spec _ n EmptyString Hb ltac:(lia))
    as (ds & Heq & Hrest).
  exists ds. rewrite Heq, append_nil_r. auto.
Qed.


Lemma all_chars_impl (p q : ascii -> bool) (s : string) :
  (forall c, p c = true -> q c = true) ->
  Py.all_chars p s = true -> Py.all_chars q s = true.
Proof.
  intros Hpq. induction s as [|c s IH]; simpl; [reflexivity|].
  intros H. apply andb_prop in H as [Hc Hs].
  rewrite (Hpq c Hc). simpl. auto.
Qed.

Lemma all_chars_app (p : ascii -> bool) (s t : string) :
  Py.all_chars p (s +:+ t) = Py.all_chars p s && Py.all_chars p t.
Proof.
  induction s as [|c s IH]; simpl; [reflexivity|].
  now rewrite IH, andb_assoc.
Qed.

Lemma contains_char_app (x : ascii) (s t : string) :
  Py.contains_char x (s +:+ t) = Py.contains_char x s || Py.contains_char x t.
Proof.
  induction s as [|c s IH]; simpl; [reflexivity|].
  now rewrite IH, orb_assoc.
Qed.

(** A string has no [x] in it when all its characters pass a test that [x]
    fails. *)
Lemma all_chars_excludes (p : ascii -> bool) (x : ascii) (s : string) :
  p x = false -> Py.all_chars p s = true -> Py.contains_char x s = false.
Proof.
  intros Hx. induction s as [|c s IH]; simpl; [reflexivity|].
  intros H. apply andb_prop in H as [Hc Hs]. rewrite (IH Hs), orb_false_r.
  destruct (Ascii.eqb_spec c x) as [->|]; [congruence | reflexivity].
Qed.

Lemma int_digits_all_digits (ds : string) : forall a b,
  Py.all_chars Py.is_digit ds = true ->
  ds <> EmptyString \/ b = true ->
  Py.int_digits ds a b = Some (Json.digits_value ds a).
Proof.
  induction ds as [|c ds IH]; intros a b Hall Hne; simpl.
  - destruct Hne as [Hne | ->]; [congruence | reflexivity].
  - simpl in Hall. apply andb_prop in Hall as [Hc Hds]. rewrite Hc.
    apply IH; auto.
Qed.

Lemma lstrip_head (c : ascii) (r : string) :
  Py.is_space c = false -> Py.lstrip (String c r) = String c r.
Proof. intros H. simpl. now rewrite H. Qed.

Lemma rstrip_no_space (s : string) :
  Py.all_chars (fun c => negb (Py.is_space c)) s = true -> Py.rstrip s = s.
Proof.
  induction s as [|c s IH]; simpl; [reflexivity|].
  intros H. apply andb_prop in H as [Hc Hs]. rewrite (IH Hs).
  apply negb_true_iff in Hc. rewrite Hc. now destruct s.
Qed.

Lemma digit_not_space (c : ascii) :
  Py.is_digit c = true -> negb (Py.is_space c) = true.
Proof.
  unfold Py.is_digit, Py.is_space. intros H.
  apply andb_prop in H as [H1 H2]. apply Z.leb_le in H1, H2.
  apply negb_true_iff.
  repeat (apply orb_false_intro);
    try (apply andb_false_iff; (left; apply Z.leb_gt; lia) || (right; apply Z.leb_gt; lia));
    apply Z.eqb_neq; lia.
Qed.

Lemma strip_digits (s : string) :
  Py.all_chars Py.is_digit s = true -> Py.strip s = s.
Proof.
  intros H. unfold Py.strip.
  assert (Hns := all_chars_impl _ _ s digit_not_space H).
  destruct s as [|c r]; [reflexivity|].
  simpl in Hns. apply andb_prop in Hns as [Hc _].
  apply negb_true_iff in Hc. rewrite (lstrip_head c r Hc).
  apply rstrip_no_space. simpl.
  simpl in H. apply andb_prop in H as [Hd Hr].
  rewrite (digit_not_space c Hd). simpl.
  exact (all_chars_impl _ _ r digit_not_space Hr).
Qed.

Lemma int_of_str_digits (s : string) :
  Py.all_chars Py.is_digit s = true -> s <> EmptyString ->
  Py.int_of_str s = Some (Json.digits_value s 0).
Proof.
  intros Hall Hne. unfold Py.int_of_str. rewrite (strip_digits s Hall).
  rewrite <- (int_digits_all_digits s 0 false Hall (or_introl Hne)).
  destruct s as [|c r]; [congruence|].
  simpl in Hall. apply andb_prop in Hall as [Hc _].
  destruct c as [[] [] [] [] [] [] [] []];
    try (vm_compute in Hc; discriminate Hc); reflexivity.
Qed.

Lemma int_of_str_minus (s : string) :
  Py.all_chars Py.is_digit s = true -> s <> EmptyString ->
  Py.int_of_str (String "-" s) = Some (- Json.digits_value s 0).
Proof.
  intros Hall Hne. unfold Py.int_of_str.
  assert (Hs : Py.strip (String "-" s) = String "-" s).
  { unfold Py.strip. rewrite lstrip_head by reflexivity.
    apply rstrip_no_space. simpl.
    exact (all_chars_impl _ _ s digit_not_space Hall). }
  rewrite Hs.
  now rewrite (int_digits_all_digits s 0 false Hall (or_introl Hne)).
Qed.

(** [int(str(z)) == z] *)
Lemma int_of_str_str_int (z : Z) : Py.int_of_str (Py.str_int z) = Some z.
Proof.
  unfold Py.str_int. destruct (z <? 0) eqn:E.
  - apply Z.ltb_lt in E.
    destruct (str_nat_spec (- z) ltac:(lia))
      as (ds & -> & Hall & (c & r & -> & _) & Hval).
    rewrite int_of_str_minus by (auto; congruence).
    rewrite Hval. f_equal. lia.
  - apply Z.ltb_ge in E.
    destruct (str_nat_spec z E) as (ds & -> & Hall & (c & r & -> & _) & Hval).
    rewrite int_of_str_digits by (auto; congruence).
    rewrite Hval. f_equal.
Qed.

Lemma str_int_chars (z : Z) : Py.all_chars digit_or_minus (Py.str_int z) = true.
Proof.
  assert (Hd : forall c, Py.is_digit c = true -> digit_or_minus c = true).
  { intros c H. unfold digit_or_minus. now rewrite H. }
  unfold Py.str_int. destruct (z <? 0) eqn:E.
  - apply Z.ltb_lt in E.
    destruct (str_nat_spec (- z) ltac:(lia)) as (ds & -> & Hall & _).
    simpl. exact (all_chars_impl _ _ ds Hd Hall).
  - apply Z.ltb_ge in E.
    destruct (str_nat_spec z E) as (ds & -> & Hall & _).
    exact (all_chars_impl _ _ ds Hd Hall).
Qed.

Lemma str_int_no_colon (z : Z) : Py.contains_char ":" (Py.str_int z) = false.
Proof.
  apply (all_chars_excludes digit_or_minus); [reflexivity | apply str_int_chars].
Qed.


(** ** JSON: what is written is read back *)

(** Induction on values that goes into the items of lists and dicts, which
    is as far as the encoder's round trip needs to look. *)
Section PyvalInduction.

Context (P : pyval -> Prop).
Context (HNone : P PNone).
Context (HBool : forall b, P (PBool b)).
Context (HInt : forall z, P (PInt z)).
Context (HStr : forall s, P (PStr s)).
Context (HBytes : forall b, P (PBytes b)).
Context (HTuple : forall l, P (PTuple l)).
Context (HList : forall l, Forall P l -> P (PList l)).
Context (HDict : forall d, Forall (fun kv => P (snd kv)) d -> P (PDict d)).
Context (HExc : forall cls args, P (PExc cls args)).
Context (HEffect : forall e, P (PEffect e)).
Context (HObj : forall o, P (PObj o)).

Lemma pyval_items_ind : forall v, P v.
Proof.
  fix IH 1. intros [ | b | z | s | b | l | l | d | cls args | e | o].
  - exact HNone.
  - exact (HBool b).
  - exact (HInt z).
  - exact (HStr s).
  - exact (HBytes b).
  - exact (HTuple l).
  - apply HList. induction l as [|x l IHl]; constructor; [apply IH | exact IHl].
  - apply HDict. induction d as [|kv d IHd]; constructor; [apply IH | exact IHd].
  - exact (HExc cls args).
  - exact (HEffect e).
  - exact (HObj o).
Qed.

End PyvalInduction.

Lemma length_append (s t : string) :
  String.length (s +:+ t) = (String.length s + String.length t)%nat.
Proof. induction s as [|c s IH]; simpl; [reflexivity | now rewrite IH]. Qed.

(** *** Strings *)

Lemma scan_string_plain (c : ascii) (r : string) :
  Py.code c <> 34 -> Py.code c <> 92 -> 32 <= Py.code c ->
  Json.scan_string (String c r)
  = (p ← Json.scan_string r; Return (String c (fst p), snd p)).
Proof.
  intros H1 H2 H3. cbn [Json.scan_string].
  apply Z.eqb_neq in H1, H2. rewrite H1, H2.
  now replace (Py.code c <? 32) with false by (symmetry; apply Z.ltb_ge; lia).
Qed.

Lemma scan_string_backslash (e ch : ascii) (r : string) :
  Py.code e <> 117 -> Json.unescape e = Some ch ->
  Json.scan_string (String "\"%char (String e r))
  = (p ← Json.scan_string r; Return (String ch (fst p), snd p)).
Proof.
  intros H1 H2. cbn [Json.scan_string].
  change (Py.code "\" =? 34) with false. change (Py.code "\" =? 92) with true.
  cbv iota. apply Z.eqb_neq in H1. now rewrite H1, H2.
Qed.

Lemma hex_val_hex_char (d : Z) :
  0 <= d < 16 -> Json.hex_val (Py.hex_char d) = Some d.
Proof.
  intros H.
  assert (Hc : d = 0 \/ d = 1 \/ d = 2 \/ d = 3 \/ d = 4 \/ d = 5 \/ d = 6
               \/ d = 7 \/ d = 8 \/ d = 9 \/ d = 10 \/ d = 11 \/ d = 12
               \/ d = 13 \/ d = 14 \/ d = 15) by lia.
  repeat (destruct Hc as [-> | Hc]; [reflexivity|]). now subst.
Qed.

Lemma scan_string_u00 (n : Z) (r : string) :
  0 <= n < 256 ->
  Json.scan_string ("\u" +:+ Json.hex4 n +:+ r)
  = (p ← Json.scan_string r; Return (String (Py.chr n) (fst p), snd p)).
Proof.
  intros Hn. unfold Json.hex4, Py.hex2.
  rewrite (Z.div_small n 256), (Z.mod_small n 256) by lia.
  change (0 / 16) with 0. change (0 mod 16) with 0.
  cbn [String.append Json.scan_string].
  change (Py.code "\" =? 34) with false. change (Py.code "\" =? 92) with true.
  change (Py.code "u" =? 117) with true. cbv iota.
  rewrite !hex_val_hex_char;
    [| apply Z.mod_pos_bound; lia
     | split; [apply Z.div_pos; lia | apply Z.div_lt_upper_bound; lia]
     | lia ].
  replace (((0 * 16 + 0) * 16 + n / 16) * 16 + n mod 16) with n
    by (pose proof (Z.div_mod n 16 ltac:(lia)); lia).
  now replace (n <? 256) with true by (symmetry; apply Z.ltb_lt; lia).
Qed.

Lemma char_of_code (c : ascii) (n : Z) : Py.code c = n -> c = Py.chr n.
Proof. intros <-. symmetry. apply chr_code. Qed.

Lemma scan_string_escape_char (c : ascii) (tail : string) :
  Json.scan_string (Json.escape_char c +:+ tail)
  = (p ← Json.scan_string tail; Return (String c (fst p), snd p)).
Proof.
  unfold Json.escape_char. pose proof (code_range c) as Hr.
  destruct (Py.code c =? 34) eqn:E34.
  { apply Z.eqb_eq, char_of_code in E34. subst c.
    now apply scan_string_backslash. }
  destruct (Py.code c =? 92) eqn:E92.
  { apply Z.eqb_eq, char_of_code in E92. subst c.
    now apply scan_string_backslash. }
  destruct (Py.code c =? 10) eqn:E10.
  { apply Z.eqb_eq, char_of_code in E10. subst c.
    now apply scan_string_backslash. }
  destruct (Py.code c =? 13) eqn:E13.
  { apply Z.eqb_eq, char_of_code in E13. subst c.
    now apply scan_string_backslash. }
  destruct (Py.code c =? 9) eqn:E9.
  { apply Z.eqb_eq, char_of_code in E9. subst c.
    now apply scan_string_backslash. }
  destruct (Py.code c =? 12) eqn:E12.
  { apply Z.eqb_eq, char_of_code in E12. subst c.
    now apply scan_string_backslash. }
  destruct (Py.code c =? 8) eqn:E8.
  { apply Z.eqb_eq, char_of_code in E8. subst c.
    now apply scan_string_backslash. }
  apply Z.eqb_neq in E34, E92.
  destruct ((Py.code c <? 32) || (126 <? Py.code c)) eqn:Eout.
  - rewrite append_assoc, (scan_string_u00 (Py.code c) tail Hr).
    now rewrite chr_code.
  - apply orb_false_elim in Eout as [Elo _]. apply Z.ltb_ge in Elo.
    cbn [String.append]. now apply scan_string_plain.
Qed.

Lemma scan_string_escape (s rest : string) :
  Json.scan_string (Json.escape s +:+ String Py.dquote rest) = Return (s, rest).
Proof.
  induction s as [|c s IH].
  - reflexivity.
  - cbn [Json.escape]. rewrite append_assoc, scan_string_escape_char, IH.
    reflexivity.
Qed.

Lemma scan_string_quote (s rest : string) :
  Json.scan_string (Json.escape s +:+ String Py.dquote EmptyString +:+ rest)
  = Return (s, rest).
Proof. apply scan_string_escape. Qed.

Lemma length_escape_char (c : ascii) : (1 <= String.length (Json.escape_char c))%nat.
Proof.
  destruct c as [[] [] [] [] [] [] [] []]; vm_compute; lia.
Qed.

(** *** Numbers *)

Lemma span_digits_stop (ds rest : string) :
  Py.all_chars Py.is_digit ds = true ->
  Json.starts_with_digit rest = false ->
  Json.span_digits (ds +:+ rest) = (ds, rest).
Proof.
  intros Hall Hrest. induction ds as [|c ds IH]; simpl.
  - destruct rest as [|x rest]; [reflexivity|]. simpl in Hrest.
    cbn [Json.span_digits]. now rewrite Hrest.
  - simpl in Hall. apply andb_prop in Hall as [Hc Hds].
    now rewrite Hc, (IH Hds).
Qed.

Lemma value_end_not_digit (rest : string) :
  value_end rest = true -> Json.starts_with_digit rest = false.
Proof.
  destruct rest as [|c rest]; [reflexivity|]. simpl. intros H.
  destruct (Py.is_digit c) eqn:Hd; [|reflexivity].
  destruct c as [[] [] [] [] [] [] [] []];
    vm_compute in H; vm_compute in Hd; congruence.
Qed.

Lemma value_end_not_float (rest : string) :
  value_end rest = true -> Json.float_tail rest = false.
Proof.
  destruct rest as [|c rest]; [reflexivity|]. intros H.
  unfold value_end in H.
  assert (Hc : c = ","%char \/ c = "]"%char \/ c = "}"%char).
  { destruct (Ascii.eqb_spec c ","); [auto|].
    destruct (Ascii.eqb_spec c "]"); [auto|].
    destruct (Ascii.eqb_spec c "}"); [auto|]. discriminate H. }
  destruct Hc as [-> | [-> | ->]]; reflexivity.
Qed.

Lemma scan_nat_str_nat (n : Z) (rest : string) :
  0 <= n -> value_end rest = true ->
  Json.scan_nat (Py.str_nat n +:+ rest) = Some (n, rest).
Proof.
  intros Hn Hrest.
  destruct (Z.eq_dec n 0) as [-> | Hne]; [reflexivity|].
  destruct (str_nat_spec n Hn) as (ds & -> & Hall & (c & r & -> & Hlead) & Hval).
  unfold Json.scan_nat. cbn [String.append].
  assert (Hc : (Py.code c =? 48) = false) by (apply Z.eqb_neq, Hlead; lia).
  rewrite Hc.
  pose proof Hall as Hall'. simpl in Hall'. apply andb_prop in Hall' as [Hd _].
  rewrite Hd.
  change (String c (r +:+ rest)) with (String c r +:+ rest).
  rewrite (span_digits_stop _ _ Hall (value_end_not_digit _ Hrest)).
  cbn [fst snd]. rewrite Hval, Z.mul_0_l, Z.add_0_l. reflexivity.
Qed.

Lemma digit_code (c : ascii) :
  Py.is_digit c = true -> 48 <= Py.code c <= 57.
Proof.
  unfold Py.is_digit. intros H. apply andb_prop in H as [H1 H2].
  apply Z.leb_le in H1, H2. lia.
Qed.

(** The text of an int, read back. *)
Lemma scan_value_int (z : Z) (fuel : nat) (rest : string) :
  value_end rest = true ->
  Json.scan_value (S fuel) (Py.str_int z +:+ rest) = Return (PInt z, rest).
Proof.
  intros Hrest. unfold Py.str_int. destruct (z <? 0) eqn:E.
  - apply Z.ltb_lt in E.
    cbn [String.append Json.scan_value]. change (Py.code "-" =? 34) with false.
    change (Py.code "-" =? 91) with false.
    change (Py.code "-" =? 123) with false.
    change (Py.code "-" =? 45) with true. cbv iota.
    unfold Json.scan_number.
    rewrite (scan_nat_str_nat (- z) rest ltac:(lia) Hrest).
    rewrite (value_end_not_float _ Hrest). now rewrite Z.opp_involutive.
  - apply Z.ltb_ge in E.
    pose proof (scan_nat_str_nat z rest E Hrest) as Hscan.
    destruct (str_nat_spec z E) as (ds & Hds & Hall & (c & r & -> & _) & _).
    rewrite Hds in *. simpl in Hall. apply andb_prop in Hall as [Hd _].
    pose proof (digit_code c Hd) as Hc.
    cbn [String.append Json.scan_value].
    replace (Py.code c =? 34) with false by (symmetry; apply Z.eqb_neq; lia).
    replace (Py.code c =? 91) with false by (symmetry; apply Z.eqb_neq; lia).
    replace (Py.code c =? 123) with false by (symmetry; apply Z.eqb_neq; lia).
    replace (Py.code c =? 45) with false by (symmetry; apply Z.eqb_neq; lia).
    rewrite Hd. unfold Json.scan_number.
    change (String c (r +:+ rest)) with (String c r +:+ rest).
    rewrite Hscan, (value_end_not_float _ Hrest). reflexivity.
Qed.

Lemma str_int_start (z : Z) :
  value_start (Py.str_int z) = true /\ (1 <= String.length (Py.str_int z))%nat.
Proof.
  assert (Hd : forall c r, Py.is_digit c = true ->
                 value_start (String c r) = true).
  { intros c r H. simpl.
    destruct c as [[] [] [] [] [] [] [] []];
      vm_compute in H; try discriminate H; reflexivity. }
  unfold Py.str_int. destruct (z <? 0) eqn:E.
  - split; [reflexivity | simpl; lia].
  - apply Z.ltb_ge in E.
    destruct (str_nat_spec z E) as (ds & -> & Hall & (c & r & -> & _) & _).
    simpl in Hall. apply andb_prop in Hall as [Hc _].
    split; [now apply Hd | simpl; lia].
Qed.


(** *** Lists and dicts *)

Lemma skip_ws_value_start (s rest : string) :
  value_start s = true -> Json.skip_ws (s +:+ rest) = s +:+ rest.
Proof.
  destruct s as [|c s]; [discriminate|]. simpl. intros H.
  apply andb_prop in H as [H _]. apply andb_prop in H as [H _].
  apply negb_true_iff in H. now rewrite H.
Qed.

Lemma skip_ws_value_end (rest : string) :
  value_end rest = true -> Json.skip_ws rest = rest.
Proof.
  destruct rest as [|c rest]; [reflexivity|]. intros H.
  assert (Hc : c = ","%char \/ c = "]"%char \/ c = "}"%char).
  { unfold value_end in H.
    destruct (Ascii.eqb_spec c ","); [auto|].
    destruct (Ascii.eqb_spec c "]"); [auto|].
    destruct (Ascii.eqb_spec c "}"); [auto|]. discriminate H. }
  destruct Hc as [-> | [-> | ->]]; reflexivity.
Qed.

Lemma next_is_value_start (x : ascii) (s rest : string) :
  value_start s = true -> x = "]"%char \/ x = "}"%char ->
  Json.next_is x (s +:+ rest) = None.
Proof.
  destruct s as [|c s]; [discriminate|]. simpl. intros H Hx.
  apply andb_prop in H as [H H3]. apply andb_prop in H as [_ H2].
  apply negb_true_iff in H2, H3.
  destruct Hx as [-> | ->]; [now rewrite H2 | now rewrite H3].
Qed.

Lemma value_start_quote (k tail : string) :
  value_start (Json.quote k +:+ tail) = true.
Proof. reflexivity. Qed.

(** Stepping the decoder over the fixed text between two values. *)
Lemma skip_ws_space (t : string) :
  Json.skip_ws (String " "%char t) = Json.skip_ws t.
Proof. reflexivity. Qed.

Lemma skip_ws_comma (t : string) :
  Json.skip_ws (String ","%char t) = String ","%char t.
Proof. reflexivity. Qed.

Lemma skip_ws_colon (t : string) :
  Json.skip_ws (String ":"%char t) = String ":"%char t.
Proof. reflexivity. Qed.

Lemma next_is_here (x : ascii) (t : string) :
  Json.next_is x (String x t) = Some t.
Proof. cbn [Json.next_is]. now rewrite Ascii.eqb_refl. Qed.

Lemma next_is_comma_bracket (t : string) :
  Json.next_is "]"%char (String ","%char t) = None.
Proof. reflexivity. Qed.

Lemma next_is_comma_brace (t : string) :
  Json.next_is "}"%char (String ","%char t) = None.
Proof. reflexivity. Qed.

Create Rewrite HintDb scan.
#[local] Hint Rewrite skip_ws_space skip_ws_comma skip_ws_colon next_is_here
  next_is_comma_bracket next_is_comma_brace append_assoc : scan.

Ltac scan_step :=
  cbn [String.append mbind result_mbind result_bind fst snd];
  autorewrite with scan.

Lemma items_size_cons x r :
  items_size (x :: r) = (S (scan_size x) + items_size r)%nat.
Proof. reflexivity. Qed.

Lemma members_size_cons kv r :
  members_size (kv :: r) = (S (scan_size (snd kv)) + members_size r)%nat.
Proof. reflexivity. Qed.

Lemma dumps_items_cons (f : pyval -> result string) x r :
  Json.dumps_items f (x :: r)
  = (sx ← f x;
     match r with
     | [] => Return sx
     | _ => sr ← Json.dumps_items f r; Return (sx +:+ ", " +:+ sr)
     end).
Proof. reflexivity. Qed.

Lemma dumps_members_cons (f : pyval -> result string) k x r :
  Json.dumps_members f ((k, x) :: r)
  = (sx ← f x;
     match r with
     | [] => Return (Json.quote k +:+ ": " +:+ sx)
     | _ =>
         sr ← Json.dumps_members f r;
         Return (Json.quote k +:+ ": " +:+ sx +:+ ", " +:+ sr)
     end).
Proof. reflexivity. Qed.

(** The items of a list, written with [", "] between them and closed by
    ["]"], are read back by [scan_items]. *)
Lemma scan_items_dumps (l : list pyval) :
  Forall (fun v => json_ok v = true ->
                   exists s, Json.dumps v = Return s /\ reads_back v s) l ->
  forallb json_ok l = true ->
  l <> [] ->
  exists body,
    Json.dumps_items Json.dumps l = Return body
    /\ value_start body = true
    /\ (items_size l <= 2 * String.length body + 1)%nat
    /\ forall fuel rest,
         (items_size l <= fuel)%nat ->
         Json.scan_items fuel (body +:+ String "]"%char rest)
         = Return (l, rest).
Proof.
  induction 1 as [|x r Hx Hr IH]; intros Hok Hne; [congruence|].
  cbn [forallb] in Hok. apply andb_prop in Hok as [Hokx Hokr].
  destruct (Hx Hokx) as (sx & Hdx & Hstart & Hlen & Hscan).
  rewrite dumps_items_cons, Hdx. cbn [mbind result_mbind result_bind].
  destruct r as [|y r'].
  - exists sx. split; [reflexivity|]. split; [exact Hstart|]. split.
    + rewrite items_size_cons. change (items_size []) with O. lia.
    + intros fuel rest Hfuel. rewrite items_size_cons in Hfuel.
      destruct fuel as [|f]; [lia|]. cbn [Json.scan_items].
      rewrite (Hscan f (String "]"%char rest)) by (lia || reflexivity).
      reflexivity.
  - destruct (IH Hokr ltac:(congruence)) as (sr & Hdr & Hstartr & Hlenr & Hscanr).
    rewrite Hdr. cbn [mbind result_mbind result_bind].
    eexists. split; [reflexivity|]. split.
    { destruct sx; [discriminate Hstart | exact Hstart]. }
    split.
    + rewrite (items_size_cons x). rewrite !length_append.
      simpl String.length. lia.
    + intros fuel rest Hfuel. rewrite (items_size_cons x) in Hfuel.
      destruct fuel as [|f]; [lia|]. cbn [Json.scan_items]. scan_step.
      rewrite (Hscan f _) by (lia || reflexivity). scan_step.
      rewrite (skip_ws_value_start sr _ Hstartr).
      rewrite (Hscanr f rest) by lia. reflexivity.
Qed.


Lemma dict_set_fresh {A} (d : list (string * A)) (k : string) (v : A) :
  k ∉ d.*1 -> dict_set d k v = (d ++ [(k, v)])%list.
Proof.
  induction d as [|[k' v'] d IH]; intros Hk; [reflexivity|].
  cbn [fmap list_fmap fst] in Hk. apply not_elem_of_cons in Hk as [Hne Hk].
  cbn [dict_set]. destruct (String.eqb_spec k' k) as [->|_]; [congruence|].
  cbn [app]. now rewrite (IH Hk).
Qed.

Lemma dict_pairs_fold {A} (ps : list (string * A)) : forall d,
  NoDup (d ++ ps)%list.*1 ->
  fold_left (fun d p => dict_set d (fst p) (snd p)) ps d = (d ++ ps)%list.
Proof.
  induction ps as [|[k v] ps IH]; intros d Hnd; cbn [fold_left fst snd].
  - now rewrite app_nil_r.
  - assert (Hk : k ∉ d.*1).
    { rewrite fmap_app in Hnd. apply NoDup_app in Hnd as (_ & Hdis & _).
      intros Hin. apply (Hdis k Hin). cbn. apply list_elem_of_here. }
    rewrite (dict_set_fresh d k v Hk).
    rewrite IH; rewrite <- app_assoc; [reflexivity | exact Hnd].
Qed.

(** A dict built from pairs with distinct keys is the list of pairs. *)
Lemma dict_of_pairs_nodup {A} (ps : list (string * A)) :
  NoDup ps.*1 -> dict_of_pairs ps = ps.
Proof. intros H. unfold dict_of_pairs. now rewrite dict_pairs_fold. Qed.

(** The members of a dict, written [key: value] with [", "] between them
    and closed by a brace, are read back by [scan_members]. *)
Lemma scan_members_dumps (d : list (string * pyval)) :
  Forall (fun kv => json_ok (snd kv) = true ->
                    exists s, Json.dumps (snd kv) = Return s
                              /\ reads_back (snd kv) s) d ->
  forallb (fun kv => json_ok (snd kv)) d = true ->
  d <> [] ->
  exists body,
    Json.dumps_members Json.dumps d = Return body
    /\ value_start body = true
    /\ (members_size d <= 2 * String.length body + 1)%nat
    /\ forall fuel rest,
         (members_size d <= fuel)%nat ->
         Json.scan_members fuel (body +:+ String "}"%char rest)
         = Return (d, rest).
Proof.
  induction 1 as [|[k x] r Hx Hr IH]; intros Hok Hne; [congruence|].
  cbn [forallb snd] in Hok. apply andb_prop in Hok as [Hokx Hokr].
  cbn [snd] in Hx.
  destruct (Hx Hokx) as (sx & Hdx & Hstart & Hlen & Hscan).
  rewrite dumps_members_cons, Hdx. cbn [mbind result_mbind result_bind].
  assert (Hkey : forall tail,
            Json.next_is Py.dquote (Json.quote k +:+ tail)
            = Some (Json.escape k +:+ String Py.dquote tail)).
  { intros tail. unfold Json.quote. cbn [String.append Json.next_is].
    rewrite Ascii.eqb_refl, append_assoc. reflexivity. }
  destruct r as [|y r'].
  - eexists. split; [reflexivity|]. split; [reflexivity|]. split.
    + rewrite members_size_cons. change (members_size []) with O.
      cbn [snd]. rewrite !length_append. lia.
    + intros fuel rest Hfuel. rewrite members_size_cons in Hfuel.
      cbn [snd] in Hfuel.
      destruct fuel as [|f]; [lia|]. cbn [Json.scan_members].
      rewrite append_assoc, Hkey, scan_string_escape. scan_step.
      rewrite (skip_ws_value_start sx _ Hstart).
      rewrite (Hscan f (String "}"%char rest)) by (lia || reflexivity).
      scan_step. reflexivity.
  - destruct (IH Hokr ltac:(congruence)) as (sr & Hdr & Hstartr & Hlenr & Hscanr).
    rewrite Hdr. cbn [mbind result_mbind result_bind].
    eexists. split; [reflexivity|]. split; [reflexivity|]. split.
    + rewrite (members_size_cons (k, x)). cbn [snd].
      rewrite !length_append. simpl String.length. lia.
    + intros fuel rest Hfuel. rewrite (members_size_cons (k, x)) in Hfuel.
      cbn [snd] in Hfuel.
      destruct fuel as [|f]; [lia|]. cbn [Json.scan_members].
      rewrite append_assoc, Hkey, scan_string_escape. scan_step.
      rewrite (skip_ws_value_start sx _ Hstart).
      rewrite (Hscan f _) by (lia || reflexivity). scan_step.
      rewrite (skip_ws_value_start sr _ Hstartr).
      rewrite (Hscanr f rest) by lia. reflexivity.
Qed.


(** Every value the encoder round-trips is written to a text that is read
    back as that value. *)
Lemma dumps_reads_back (v : pyval) :
  json_ok v = true -> exists s, Json.dumps v = Return s /\ reads_back v s.
Proof.
  induction v as [ | b | z | s | b | l | l IH | d IH | cls args | e | o ]
    using pyval_items_ind; intros Hok; try discriminate Hok.
  - exists "null". split; [reflexivity|]. split; [reflexivity|].
    split; [simpl; lia|]. intros [|f] rest Hf _; [simpl in Hf; lia | reflexivity].
  - destruct b.
    + exists "true". split; [reflexivity|]. split; [reflexivity|].
      split; [simpl; lia|].
      intros [|f] rest Hf _; [simpl in Hf; lia | reflexivity].
    + exists "false". split; [reflexivity|]. split; [reflexivity|].
      split; [simpl; lia|].
      intros [|f] rest Hf _; [simpl in Hf; lia | reflexivity].
  - exists (Py.str_int z). split; [reflexivity|].
    destruct (str_int_start z) as [Hstart Hlen].
    split; [exact Hstart|]. split; [simpl; lia|].
    intros [|f] rest Hf Hrest; [simpl in Hf; lia|].
    now apply scan_value_int.
  - exists (Json.quote s). split; [reflexivity|]. split; [reflexivity|].
    split; [simpl; lia|].
    intros [|f] rest Hf _; [simpl in Hf; lia|].
    unfold Json.quote. cbn [String.append Json.scan_value].
    change (Py.code Py.dquote =? 34) with true. cbv iota.
    rewrite append_assoc, scan_string_quote. reflexivity.
  - (* lists *)
    cbn [json_ok] in Hok. destruct l as [|x r].
    + exists "[]". split; [reflexivity|]. split; [reflexivity|].
      split; [simpl; lia|].
      intros [|f] rest Hf _; [simpl in Hf; lia | reflexivity].
    + destruct (scan_items_dumps (x :: r) IH Hok ltac:(congruence))
        as (body & Hd & Hstart & Hlen & Hscan).
      cbn [Json.dumps]. rewrite Hd. cbn [mbind result_mbind result_bind].
      eexists. split; [reflexivity|]. split; [reflexivity|]. split.
      * cbn [scan_size]. fold (items_size (x :: r)).
        rewrite !length_append. simpl String.length. lia.
      * intros fuel rest Hf _. cbn [scan_size] in Hf.
        fold (items_size (x :: r)) in Hf.
        destruct fuel as [|f]; [lia|].
        rewrite !append_assoc.
        change ("[" +:+ body +:+ "]" +:+ rest)
          with (String "["%char (body +:+ String "]"%char rest)).
        cbn [Json.scan_value].
        change (Py.code "[" =? 34) with false.
        change (Py.code "[" =? 91) with true. cbv iota.
        rewrite (skip_ws_value_start body _ Hstart).
        rewrite (next_is_value_start "]" body _ Hstart (or_introl eq_refl)).
        rewrite (Hscan f rest) by lia. reflexivity.
  - (* dicts *)
    cbn [json_ok] in Hok. apply andb_prop in Hok as [Hnd Hok].
    apply bool_decide_eq_true in Hnd. destruct d as [|kv r].
    + exists "{}". split; [reflexivity|]. split; [reflexivity|].
      split; [simpl; lia|].
      intros [|f] rest Hf _; [simpl in Hf; lia | reflexivity].
    + destruct (scan_members_dumps (kv :: r) IH Hok ltac:(congruence))
        as (body & Hd & Hstart & Hlen & Hscan).
      cbn [Json.dumps]. rewrite Hd. cbn [mbind result_mbind result_bind].
      eexists. split; [reflexivity|]. split; [reflexivity|]. split.
      * cbn [scan_size]. fold (members_size (kv :: r)).
        rewrite !length_append. simpl String.length. lia.
      * intros fuel rest Hf _. cbn [scan_size] in Hf.
        fold (members_size (kv :: r)) in Hf.
        destruct fuel as [|f]; [lia|].
        rewrite !append_assoc.
        change ("{" +:+ body +:+ "}" +:+ rest)
          with (String "{"%char (body +:+ String "}"%char rest)).
        cbn [Json.scan_value].
        change (Py.code "{" =? 34) with false.
        change (Py.code "{" =? 91) with false.
        change (Py.code "{" =? 123) with true. cbv iota.
        rewrite (skip_ws_value_start body _ Hstart).
        rewrite (next_is_value_start "}" body _ Hstart (or_intror eq_refl)).
        rewrite (Hscan f rest) by lia.
        cbn [mbind result_mbind result_bind fst snd].
        now rewrite (dict_of_pairs_nodup _ Hnd).
Qed.

(** [json.loads(json.dumps(v)) == v] for every such value. *)
Lemma loads_dumps (v : pyval) :
  json_ok v = true ->
  exists s, Json.dumps v = Return s /\ Json.loads s = Return v.
Proof.
  intros Hok.
  destruct (dumps_reads_back v Hok) as (s & Hd & Hstart & Hlen & Hscan).
  exists s. split; [exact Hd|]. unfold Json.loads.
  rewrite <- (append_nil_r s) at 2.
  rewrite (skip_ws_value_start s _ Hstart).
  rewrite (Hscan _ EmptyString) by (lia || reflexivity).
  reflexivity.
Qed.

(** *** The Effect round trip *)

Lemma Effect_dRet_ok (e : Effect) :
  Effect_json_ok e = true -> json_ok (PDict (Effect_dRet e)) = true.
Proof.
  destruct e as [[d|] [x|] [w|]]; unfold Effect_json_ok; cbn;
    intros H; repeat (apply andb_prop in H as [H ?]);
    repeat (apply andb_true_intro; split); auto;
    apply bool_decide_eq_true; repeat constructor; set_solver.
Qed.

Lemma Effect_fromDict_dRet (e : Effect) :
  Effect_fromDict (PDict (Effect_dRet e)) = Return e.
Proof. destruct e as [[d|] [x|] [w|]]; reflexivity. Qed.

(** C1.  For every Effect whose attributes, where set, hold values that
    JSON represents, whichever of data, error and warning are set,
    [Effect.fromJSON(str(e))] returns an Effect with the same attributes set
    to the same values; an attribute that is not set stays not set and does
    not come back as None. *)
Theorem Effect_json_round_trip (e : Effect) :
  Effect_json_ok e = true ->
  exists s,
    Effect_str e = Return s
    /\ Effect_fromJSON s = Return e.
Proof.
  intros Hok.
  destruct (loads_dumps _ (Effect_dRet_ok e Hok)) as (s & Hd & Hl).
  exists s. split; [exact Hd|].
  unfold Effect_fromJSON. rewrite Hl. apply Effect_fromDict_dRet.
Qed.

Lemma Effect_json_round_trip_witness :
  exists s,
    Effect_str (mkEffect (Some (PDict [("ok", PBool true)])) None
                         (Some (PStr "slow"))) = Return s
    /\ Effect_fromJSON s
       = Return (mkEffect (Some (PDict [("ok", PBool true)])) None
                          (Some (PStr "slow"))).
Proof.
  exact (Effect_json_round_trip
           (mkEffect (Some (PDict [("ok", PBool true)])) None
                     (Some (PStr "slow"))) eq_refl).
Defined.


(** ** The internal key *)

Lemma hex_char_hex (d : Z) : 0 <= d < 16 -> is_hex_digit (Py.hex_char d) = true.
Proof.
  intros H.
  assert (Hc : d = 0 \/ d = 1 \/ d = 2 \/ d = 3 \/ d = 4 \/ d = 5 \/ d = 6
               \/ d = 7 \/ d = 8 \/ d = 9 \/ d = 10 \/ d = 11 \/ d = 12
               \/ d = 13 \/ d = 14 \/ d = 15) by lia.
  repeat (destruct Hc as [-> | Hc]; [reflexivity|]). now subst.
Qed.

Lemma hex2_hex (n : Z) : 0 <= n < 256 ->
  Py.all_chars is_hex_digit (Py.hex2 n) = true.
Proof.
  intros H. unfold Py.hex2. simpl.
  rewrite !hex_char_hex; [reflexivity | |].
  - apply Z.mod_pos_bound. lia.
  - split; [apply Z.div_pos; lia | apply Z.div_lt_upper_bound; lia].
Qed.

Lemma be_bytes_range (n : nat) (x : Z) :
  Forall (fun b => 0 <= b < 256) (Sha1.be_bytes n x).
Proof.
  induction n as [|n IH]; simpl; constructor; [|exact IH].
  change 255 with (Z.ones 8). rewrite Z.land_ones by lia.
  apply Z.mod_pos_bound. lia.
Qed.

Lemma hex32_hex (x : Z) : Py.all_chars is_hex_digit (Sha1.hex32 x) = true.
Proof.
  unfold Sha1.hex32.
  induction (be_bytes_range 4 x) as [|b l Hb _ IH]; [reflexivity|].
  cbn [fold_right].
  rewrite all_chars_app, IH, andb_true_r. now apply hex2_hex.
Qed.

Lemma hexdigest_hex (msg : string) :
  Py.all_chars is_hex_digit (Sha1.hexdigest msg) = true.
Proof.
  unfold Sha1.hexdigest.
  destruct (Sha1.digest msg) as [[[[a b] c] d] e].
  now rewrite !all_chars_app, !hex32_hex.
Qed.

Lemma hexdigest_no_colon (msg : string) :
  Py.contains_char ":" (Sha1.hexdigest msg) = false.
Proof.
  apply (all_chars_excludes is_hex_digit); [reflexivity | apply hexdigest_hex].
Qed.

Lemma split_no_sep (sep : ascii) (s : string) :
  Py.contains_char sep s = false -> Py.split sep s = [s].
Proof.
  induction s as [|c s IH]; simpl; [reflexivity|].
  intros H. apply orb_false_elim in H as [Hc Hs].
  now rewrite Hc, (IH Hs).
Qed.

Lemma split_once (sep : ascii) (a b : string) :
  Py.contains_char sep a = false -> Py.contains_char sep b = false ->
  Py.split sep (a +:+ String sep b) = [a; b].
Proof.
  intros Ha Hb. induction a as [|c a IH]; simpl.
  - now rewrite Ascii.eqb_refl, (split_no_sep sep b Hb).
  - simpl in Ha. apply orb_false_elim in Ha as [Hc Ha].
    now rewrite Hc, (IH Ha).
Qed.

Lemma string_eqb_refl (s : string) : String.eqb s s = true.
Proof. apply String.eqb_refl. Qed.

(** A key made at [T] is accepted whenever the clock of the check is at most
    5 seconds past [T]: the check looks at [iTime - int(sTime)] only. *)
Lemma internalKey_accepts (st : state) (salt : string) (T T' : Z) :
  __msSalt st = Some salt ->
  T' - T <= 5 ->
  exists key,
    internalKey st T PNone = Return (PStr key)
    /\ internalKey st T' (PStr key) = Return (PBool true).
Proof.
  intros Hsalt Hle. unfold internalKey, key_digest. rewrite Hsalt.
  eexists. split; [reflexivity|].
  unfold key_check. cbn [mbind result_mbind result_bind].
  change (":" +:+ Py.str_int T) with (String ":"%char (Py.str_int T)).
  rewrite split_once by (apply hexdigest_no_colon || apply str_int_no_colon).
  rewrite int_of_str_str_int.
  destruct (T' - T >? 5) eqn:E; [apply Z.gtb_lt in E; lia|].
  unfold key_digest. rewrite Hsalt. cbn [mbind result_mbind result_bind].
  now rewrite string_eqb_refl.
Qed.

Lemma internalKey_rejects_old (st : state) (salt : string) (T T' : Z) :
  __msSalt st = Some salt ->
  5 < T' - T ->
  exists key,
    internalKey st T PNone = Return (PStr key)
    /\ internalKey st T' (PStr key) = Return (PBool false).
Proof.
  intros Hsalt Hlt. unfold internalKey, key_digest. rewrite Hsalt.
  eexists. split; [reflexivity|].
  unfold key_check. cbn [mbind result_mbind result_bind].
  change (":" +:+ Py.str_int T) with (String ":"%char (Py.str_int T)).
  rewrite split_once by (apply hexdigest_no_colon || apply str_int_no_colon).
  rewrite int_of_str_str_int.
  destruct (T' - T >? 5) eqn:E; [reflexivity|].
  rewrite Z.gtb_ltb in E. apply Z.ltb_ge in E. lia.
Qed.

(** C6.  Whatever the salt and the time [T] a key is made at, the key is
    accepted by a check run at [T'] with [0 <= T' - T <= 5] and refused by a
    check run at [T + 6]. *)
Theorem internalKey_window (st : state) (salt : string) (T : Z) :
  __msSalt st = Some salt ->
  exists key,
    internalKey st T PNone = Return (PStr key)
    /\ (forall T', 0 <= T' - T <= 5 ->
                   internalKey st T' (PStr key) = Return (PBool true))
    /\ internalKey st (T + 6) (PStr key) = Return (PBool false).
Proof.
  intros Hsalt.
  destruct (internalKey_rejects_old st salt T (T + 6) Hsalt ltac:(lia))
    as (key & Hgen & Hold).
  exists key. split; [exact Hgen|]. split; [|exact Hold].
  intros T' HT'.
  destruct (internalKey_accepts st salt T T' Hsalt ltac:(lia))
    as (key' & Hgen' & Hok).
  rewrite Hgen in Hgen'. now injection Hgen' as ->.
Qed.


(** ** The router *)

Section RouterFacts.

Context (Errors : ErrorCodes).
Context (objects : gmap oid ServiceDef).
Context (transport : Request -> reply).

(** What [json.dumps] writes, [str] writes too. *)
Lemma dumps_printable (data : pyval) (sData : string) :
  Json.dumps data = Return sData -> str_for_print data = Return tt.
Proof. destruct data; try discriminate; reflexivity. Qed.

Lemma error_effect_returns (c : Z) (msg : string) :
  error_effect c msg
  = Return (PEffect (mkEffect None (Some (code_msg (PInt c) (PStr msg))) None)).
Proof. reflexivity. Qed.

(** An action outside the verb map, on the remote branch: the Effect built
    in the handler of the first [try] is dropped, and the next look-up in
    [__funcToRequest] raises. *)
Lemma request_remote_unknown_action st url action path data sesh sData :
  __funcToRequest action = None ->
  Json.dumps data = Return sData ->
  request_remote Errors transport st url action path data sesh
  = Raise KeyError [PStr action].
Proof.
  intros Hact Hdata. unfold request_remote, func_for, key_error.
  rewrite Hact, Hdata. cbn.
  now destruct (__mbVerbose st).
Qed.

Lemma request_remote_known st url action path data sesh verb sData :
  __funcToRequest action = Some verb ->
  Json.dumps data = Return sData ->
  request_remote Errors transport st url action path data sesh
  = match transport {| req_verb := verb; req_url := url +:+ path;
                       req_data := sData;
                       req_headers := request_headers sData sesh |} with
    | Refused msg =>
        e ← error_effect (SERVICE_UNREACHABLE Errors) msg; Return (inl e)
    | Responds oRes =>
        if negb (status_code oRes =? 200) then
          e ← error_effect (SERVICE_STATUS Errors)
                (Py.str_int (status_code oRes) +:+ ": "
                 +:+ Py.str_bytes (content oRes));
          Return (inl e)
        else
          match header_get (headers oRes) "Content-Type" with
          | None => key_error "content-type"
          | Some ct =>
              lct ← Py.lower ct;
              if negb (String.eqb lct "application/json; charset=utf-8") then
                e ← error_effect (SERVICE_CONTENT_TYPE Errors) ct;
                Return (inl e)
              else
                e ← Effect_fromJSON (text oRes);
                Return (inr (PEffect e))
          end
    end.
Proof.
  intros Hact Hdata. unfold request_remote, func_for.
  rewrite Hact, Hdata, (dumps_printable data sData Hdata).
  cbn [mbind result_mbind result_bind try_except].
  now destruct (__mbVerbose st).
Qed.

(** C3 (as amended).  A call to a service that has no registration raises
    an EffectException around an Effect whose error is
    (SERVICE_NOT_REGISTERED, service); nothing is returned.  It is not the
    only fault that reaches the caller: when a registered remote service
    answers 200 with the JSON content type and a body that does not
    parse, the call raises ValueError('val'). *)
Theorem request_faults st service action path data sesh :
  (__mdRegistered st !! service = None ->
   __request Errors objects transport st service action path data sesh
   = Raise EffectException
       [PEffect (mkEffect None
          (Some (PDict [("code", PInt (SERVICE_NOT_REGISTERED Errors));
                        ("msg", PStr service)])) None)])
  /\ (forall url verb sData oRes ct args,
        __mdRegistered st !! service = Some (Url url) ->
        __funcToRequest action = Some verb ->
        Json.dumps data = Return sData ->
        transport {| req_verb := verb; req_url := url +:+ path;
                     req_data := sData;
                     req_headers := request_headers sData sesh |}
          = Responds oRes ->
        status_code oRes = 200 ->
        header_get (headers oRes) "Content-Type" = Some ct ->
        Py.lower ct = Return "application/json; charset=utf-8" ->
        Json.loads (text oRes) = Raise ValueError args ->
        __request Errors objects transport st service action path data sesh
        = Raise ValueError [PStr "val"]).
Proof.
  split.
  - intros Hreg. unfold __request. now rewrite Hreg.
  - intros url verb sData oRes ct args Hreg Hact Hdata Htr Hst Hct Hlow Hbody.
    unfold __request. rewrite Hreg.
    rewrite (request_remote_known _ _ _ _ _ _ _ _ Hact Hdata), Htr, Hst.
    cbn [Z.eqb Pos.eqb negb]. rewrite Hct, Hlow.
    cbn [mbind result_mbind result_bind].
    unfold Effect_fromJSON. rewrite Hbody. reflexivity.
Qed.

(** C4 (what the code does).  On a registered remote service, an action
    outside the verb map does not come back as an Effect: the call raises
    KeyError(action). *)
Theorem request_unknown_action st service url action path data sesh sData :
  __mdRegistered st !! service = Some (Url url) ->
  __funcToRequest action = None ->
  Json.dumps data = Return sData ->
  __request Errors objects transport st service action path data sesh
  = Raise KeyError [PStr action].
Proof.
  intros Hreg Hact Hdata. unfold __request. rewrite Hreg.
  now rewrite (request_remote_unknown_action _ _ _ _ _ _ _ Hact Hdata).
Qed.

(** C9 (what the code does).  When the peer answers with a status other
    than 200, the call returns an Effect whose error has the code
    SERVICE_STATUS and, as message, the status, a colon and a space, and
    the [str] of the response's [content], which is a [bytes] object and
    so prints as [b'...']. *)
Theorem request_status st service url action path data sesh verb sData oRes :
  __mdRegistered st !! service = Some (Url url) ->
  __funcToRequest action = Some verb ->
  Json.dumps data = Return sData ->
  transport {| req_verb := verb; req_url := url +:+ path;
               req_data := sData;
               req_headers := request_headers sData sesh |}
    = Responds oRes ->
  status_code oRes <> 200 ->
  __request Errors objects transport st service action path data sesh
  = Return (PEffect (mkEffect None
      (Some (PDict [("code", PInt (SERVICE_STATUS Errors));
                    ("msg", PStr (Py.str_int (status_code oRes) +:+ ": "
                                  +:+ Py.str_bytes (content oRes)))]))
      None)).
Proof.
  intros Hreg Hact Hdata Htr Hst. unfold __request. rewrite Hreg.
  rewrite (request_remote_known _ _ _ _ _ _ _ _ Hact Hdata), Htr.
  apply Z.eqb_neq in Hst. rewrite Hst. reflexivity.
Qed.

End RouterFacts.

Lemma request_faults_witness :
  read Example.codes Example.objects Example.garbled Example.started
       "sms" "/send" (PDict []) None
  = Raise EffectException
      [PEffect (mkEffect None
         (Some (PDict [("code", PInt 1004); ("msg", PStr "sms")])) None)]
  /\ read Example.codes Example.objects Example.garbled Example.started
          "mail" "/send" (PDict []) None
     = Raise ValueError [PStr "val"].
Proof.
  split.
  - apply (proj1 (request_faults Example.codes Example.objects Example.garbled
                    Example.started "sms" "read" "/send" (PDict []) None)).
    reflexivity.
  - eapply (proj2 (request_faults Example.codes Example.objects Example.garbled
                     Example.started "mail" "read" "/send" (PDict []) None));
      reflexivity.
Defined.

(** C3 (counterexample).  The service is registered, and yet the call
    raises instead of returning an Effect. *)
Lemma request_registered_raises :
  __mdRegistered Example.started !! "mail" = Some (Url "http://mail.local")
  /\ read Example.codes Example.objects Example.garbled Example.started
          "mail" "/send" (PDict []) None
     = Raise ValueError [PStr "val"].
Proof. split; reflexivity. Qed.

Lemma request_unknown_action_witness :
  __request Example.codes Example.objects Example.boom Example.started
    "mail" "patch" "/send" (PDict []) None
  = Raise KeyError [PStr "patch"].
Proof.
  eapply (request_unknown_action Example.codes Example.objects Example.boom
            Example.started "mail"); reflexivity.
Defined.

Lemma request_status_witness :
  read Example.codes Example.objects Example.boom Example.started
       "mail" "/send" (PDict []) None
  = Return (PEffect (mkEffect None
      (Some (PDict [("code", PInt 1001); ("msg", PStr "500: b'boom'")]))
      None)).
Proof.
  exact (request_status Example.codes Example.objects Example.boom
           Example.started "mail" "http://mail.local" "read" "/send"
           (PDict []) None "GET" "{}"
           {| status_code := 500; content := "boom"; text := "boom";
              headers := [("Content-Type", "text/plain")] |}
           eq_refl eq_refl eq_refl eq_refl ltac:(discriminate)).
Defined.


(** ** Registration *)

Section RegisterFacts.

Context (objects : gmap oid ServiceDef).
Context (restconf : gmap string (gmap string string)).

#[local] Abbreviation entry := (binding_entry objects restconf).
#[local] Abbreviation loop := (fun items => register_loop objects items restconf).

(** One binding that goes through: the loop stores its entry and moves
    on. *)
Lemma register_loop_step k v r rest st :
  entry k v = Some r ->
  loop ((k, v) :: rest) st = loop rest (set_registered k r st).
Proof.
  unfold binding_entry. intros H. cbn [register_loop].
  destruct v; try discriminate H.
  - destruct (restconf !! k) as [conf|]; [|discriminate H].
    destruct (conf !! "url") as [url|]; [|discriminate H].
    now injection H as <-.
  - destruct (objects !! o) as [self|]; [|discriminate H].
    destruct (svc_initialise self o); try discriminate H.
    now injection H as <-.
Qed.

Lemma bindings_state_cons k v pre st :
  bindings_state objects restconf ((k, v) :: pre) st
  = bindings_state objects restconf pre
      match entry k v with
      | Some r => set_registered k r st
      | None => st
      end.
Proof. reflexivity. Qed.

(** A run of bindings that all go through. *)
Lemma register_loop_prefix pre rest : forall st,
  Forall (fun kv => is_Some (entry (fst kv) (snd kv))) pre ->
  loop (pre ++ rest)%list st = loop rest (bindings_state objects restconf pre st).
Proof.
  induction pre as [|[k v] pre IH]; intros st Hall; [reflexivity|].
  inversion Hall as [|? ? [r Hr] Hpre]; subst. simpl in Hr.
  cbn [app]. rewrite (register_loop_step k v r _ st Hr).
  rewrite IH by exact Hpre.
  now rewrite bindings_state_cons, Hr.
Qed.

Lemma bindings_state_salt pre : forall st,
  __msSalt (bindings_state objects restconf pre st) = __msSalt st.
Proof.
  induction pre as [|[k v] pre IH]; intros st; [reflexivity|].
  rewrite bindings_state_cons.
  rewrite IH. now destruct (entry k v).
Qed.

Lemma bindings_state_other pre k : forall st,
  k ∉ pre.*1 ->
  __mdRegistered (bindings_state objects restconf pre st) !! k
  = __mdRegistered st !! k.
Proof.
  induction pre as [|[k' v'] pre IH]; intros st Hk; [reflexivity|].
  rewrite bindings_state_cons.
  cbn [fmap list_fmap fst] in Hk.
  apply not_elem_of_cons in Hk as [Hne Hk].
  rewrite IH by exact Hk.
  destruct (entry k' v'); [|reflexivity].
  cbn [set_registered __mdRegistered]. now rewrite lookup_insert_ne.
Qed.

(** With distinct names, as in a dict, each binding of the run is found
    in the registry afterwards. *)
Lemma bindings_state_lookup pre k v r : forall st,
  NoDup pre.*1 ->
  (k, v) ∈ pre ->
  entry k v = Some r ->
  __mdRegistered (bindings_state objects restconf pre st) !! k = Some r.
Proof.
  induction pre as [|[k' v'] pre IH]; intros st Hnd Hin Hr.
  - now apply elem_of_nil in Hin.
  - cbn [fmap list_fmap fst] in Hnd. apply NoDup_cons in Hnd as [Hk' Hnd].
    rewrite bindings_state_cons.
    apply elem_of_cons in Hin as [Heq | Hin].
    + injection Heq as <- <-. rewrite Hr.
      rewrite bindings_state_other by exact Hk'.
      cbn [set_registered __mdRegistered]. apply lookup_insert_eq.
    + now apply IH.
Qed.

(** When the loop returns, every binding went through. *)
Lemma register_loop_returns items : forall st st',
  loop items st = (st', Return tt) ->
  Forall (fun kv => is_Some (entry (fst kv) (snd kv))) items.
Proof.
  induction items as [|[k v] items IH]; intros st st' H; [constructor|].
  assert (Hsome : is_Some (entry k v)).
  { unfold binding_entry. cbn [register_loop] in H. unfold value_error, key_error in H.
    destruct v; try discriminate H.
    - destruct (restconf !! k) as [conf|]; [|discriminate H].
      destruct (conf !! "url"); [eauto | discriminate H].
    - destruct (objects !! o) as [self|]; [|discriminate H].
      destruct (svc_initialise self o); try discriminate H; eauto. }
  constructor; [exact Hsome|].
  destruct Hsome as [r Hr]. rewrite (register_loop_step k v r _ st Hr) in H.
  exact (IH _ _ H).
Qed.

Lemma entry_of_object k o r : entry k (PObj o) = Some r -> r = Instance o.
Proof.
  unfold binding_entry. intros H.
  destruct (objects !! o) as [self|]; [|discriminate H].
  destruct (svc_initialise self o); try discriminate H.
  now injection H as <-.
Qed.

Lemma register_loop_rejected k v post st :
  binding_rejected objects restconf k v = true ->
  loop ((k, v) :: post) st = (st, Raise ValueError [PStr ("services." +:+ k)]).
Proof.
  unfold binding_rejected. intros H. cbn [register_loop]. unfold value_error.
  destruct v; try reflexivity.
  - apply bool_decide_eq_true in H. now rewrite H.
  - apply bool_decide_eq_true in H. now rewrite H.
Qed.

(** The loop never touches the salt. *)
Lemma register_loop_salt items : forall st,
  __msSalt (fst (loop items st)) = __msSalt st.
Proof.
  induction items as [|[k v] items IH]; intros st; [reflexivity|].
  cbn [register_loop].
  destruct v; try reflexivity.
  - destruct (restconf !! k) as [conf|]; [|reflexivity].
    destruct (conf !! "url"); [|reflexivity].
    now rewrite IH.
  - destruct (objects !! o) as [self|]; [|reflexivity].
    destruct (svc_initialise self o); try reflexivity.
    now rewrite IH.
Qed.

(** The loop leaves alone the names it is not given. *)
Lemma register_loop_other (k : string) items : forall st,
  k ∉ items.*1 ->
  __mdRegistered (fst (loop items st)) !! k = __mdRegistered st !! k
  /\ __mbVerbose (fst (loop items st)) = __mbVerbose st.
Proof.
  induction items as [|[k' v] items IH]; intros st Hk; [split; reflexivity|].
  cbn [fmap list_fmap fst] in Hk. apply not_elem_of_cons in Hk as [Hne Hk].
  cbn [register_loop].
  destruct v; try (split; reflexivity).
  - destruct (restconf !! k') as [conf|]; [|split; reflexivity].
    destruct (conf !! "url"); [|split; reflexivity].
    destruct (IH (set_registered k' (Url s) st) Hk) as [-> ->].
    cbn [set_registered __mdRegistered __mbVerbose].
    now rewrite lookup_insert_ne.
  - destruct (objects !! o) as [self|]; [|split; reflexivity].
    destruct (svc_initialise self o);
      try (cbn [fst set_registered __mdRegistered __mbVerbose];
           now rewrite lookup_insert_ne).
    destruct (IH (set_registered k' (Instance o) st) Hk) as [-> ->].
    cbn [set_registered __mdRegistered __mbVerbose].
    now rewrite lookup_insert_ne.
Qed.

(** The loop never touches the verbose flag. *)
Lemma register_loop_verbose items : forall st,
  __mbVerbose (fst (loop items st)) = __mbVerbose st.
Proof.
  induction items as [|[k' v] items IH]; intros st; [reflexivity|].
  cbn [register_loop]. destruct v; try reflexivity.
  - destruct (restconf !! k') as [conf|]; [|reflexivity].
    destruct (conf !! "url"); [|reflexivity]. now rewrite IH.
  - destruct (objects !! o) as [self|]; [|reflexivity].
    destruct (svc_initialise self o); try reflexivity. now rewrite IH.
Qed.

Context (Errors : ErrorCodes).
Context (transport : Request -> reply).

(** C8 (as amended).  Take a binding of a name to a handler that the loop
    of [register] reaches.  The entry is stored first, and it is the
    handler that was passed in; then [initialise] is called: when it
    raises, the exception leaves [register] with the entry already in the
    registry.  What [initialise] returns is dropped: the rest of the call
    goes on from the registry with the handler passed in, whatever was
    returned.  However the call ends, the name is bound to that handler,
    and a call to the name is dispatched to it (in verbose mode with
    [str(data)] printed before and [str] of the result after).  The hook
    of the base class returns the handler itself, so that there the value
    returned and the entry stored coincide. *)
Theorem register_keeps_handler pre k o self post salt st :
  Forall (fun kv => is_Some (entry (fst kv) (snd kv))) pre ->
  objects !! o = Some self ->
  k ∉ post.*1 ->
  let stored :=
    set_registered k (Instance o)
      (bindings_state objects restconf pre (set_salt salt st)) in
  let out := register objects (PDict (pre ++ (k, PObj o) :: post)%list)
               restconf salt st in
  (forall cls args, svc_initialise self o = Raise cls args ->
     out = (stored, Raise cls args))
  /\ (forall x, svc_initialise self o = Return x ->
        out = register_loop objects post restconf stored)
  /\ __mdRegistered stored !! k = Some (Instance o)
  /\ __mdRegistered (fst out) !! k = Some (Instance o)
  /\ (forall action path data sesh,
        __request Errors objects transport (fst out) k action path data sesh
        = (_ ← (if __mbVerbose st then str_for_print data else Return tt);
           oEffect ← call_action Errors objects o action path data sesh;
           _ ← (if __mbVerbose st then str_for_print oEffect
                else Return tt);
           Return oEffect))
  /\ (svc_initialise self = Service_initialise ->
        svc_initialise self o = Return (PObj o)).
Proof.
  intros Hall Hobj Hk stored out.
  assert (Hout : out = match svc_initialise self o with
                       | Return _ => loop post stored
                       | Raise cls args => (stored, Raise cls args)
                       | Unmodelled => (stored, Unmodelled)
                       end).
  { subst out stored. unfold register.
    rewrite (register_loop_prefix pre _ _ Hall).
    cbn [register_loop]. now rewrite Hobj. }
  assert (Hstored : __mdRegistered stored !! k = Some (Instance o)).
  { subst stored. cbn [set_registered __mdRegistered].
    apply lookup_insert_eq. }
  assert (Hfin : __mdRegistered (fst out) !! k = Some (Instance o)).
  { rewrite Hout. destruct (svc_initialise self o); try exact Hstored.
    destruct (register_loop_other k post stored Hk) as [-> _].
    exact Hstored. }
  assert (Hverb : __mbVerbose (fst out) = __mbVerbose st).
  { subst out. unfold register. now rewrite register_loop_verbose. }
  split; [intros cls args Hi; now rewrite Hout, Hi|].
  split; [intros x Hi; now rewrite Hout, Hi|].
  split; [exact Hstored|]. split; [exact Hfin|]. split.
  - intros action path data sesh. unfold __request. rewrite Hfin, Hverb.
    destruct (__mbVerbose st);
      [destruct (str_for_print data) as [[]| |]|];
      cbn [mbind result_mbind result_bind]; try reflexivity;
      destruct (call_action Errors objects o action path data sesh);
      reflexivity.
  - intros ->. reflexivity.
Qed.

(** C10.  [register] puts the salt in place before it looks at anything
    else, so the salt is replaced however the call ends.  When the loop
    stops at a binding it turns down, the bindings that came before it
    stay in the registry, each under its name, and the salt is the new
    one. *)
Theorem register_not_atomic pre k v post salt st :
  NoDup pre.*1 ->
  Forall (fun kv => is_Some (entry (fst kv) (snd kv))) pre ->
  binding_rejected objects restconf k v = true ->
  let out := register objects (PDict (pre ++ (k, v) :: post)%list) restconf salt st in
  snd out = Raise ValueError [PStr ("services." +:+ k)]
  /\ __msSalt (fst out) = Some salt
  /\ (forall k' v', (k', v') ∈ pre ->
        is_Some (__mdRegistered (fst out) !! k')
        /\ __mdRegistered (fst out) !! k' = entry k' v')
  /\ (forall services,
        __msSalt (fst (register objects services restconf salt st))
        = Some salt).
Proof.
  intros Hnd Hall Hrej out. subst out. unfold register.
  rewrite (register_loop_prefix pre _ _ Hall).
  rewrite (register_loop_rejected k v post _ Hrej). cbn [fst snd].
  split; [reflexivity|]. split; [apply bindings_state_salt|]. split.
  - intros k' v' Hin. rewrite Forall_forall in Hall.
    destruct (Hall (k', v') Hin) as [r Hr].
    cbn [fst snd] in Hr.
    rewrite (bindings_state_lookup pre k' v' r _ Hnd Hin Hr), Hr. eauto.
  - intros services. unfold register.
    destruct services; try reflexivity. apply register_loop_salt.
Qed.

End RegisterFacts.


(** ** The statements at work *)

Lemma internalKey_window_witness :
  exists key,
    internalKey Example.started 1700000000 PNone = Return (PStr key)
    /\ (forall T', 0 <= T' - 1700000000 <= 5 ->
                   internalKey Example.started T' (PStr key)
                   = Return (PBool true))
    /\ internalKey Example.started (1700000000 + 6) (PStr key)
       = Return (PBool false).
Proof.
  exact (internalKey_window Example.started "s3cret" 1700000000 eq_refl).
Defined.

(** C7 (what the code does).  A key stamped more than 5 seconds ahead of
    the clock of the check, by whatever margin, is accepted: the check
    refuses a key only when [iTime - int(sTime)] is above 5, and for such a
    key the difference is negative. *)
Theorem internalKey_accepts_future (st : state) (salt : string) (T T' : Z) :
  __msSalt st = Some salt ->
  5 < T - T' ->
  exists key,
    internalKey st T PNone = Return (PStr key)
    /\ internalKey st T' (PStr key) = Return (PBool true).
Proof.
  intros Hsalt Hahead.
  exact (internalKey_accepts st salt T T' Hsalt ltac:(lia)).
Qed.

Lemma internalKey_accepts_future_witness :
  exists key,
    internalKey Example.started 1700003600 PNone = Return (PStr key)
    /\ internalKey Example.started 1700000000 (PStr key) = Return (PBool true).
Proof.
  exact (internalKey_accepts_future Example.started "s3cret"
           1700003600 1700000000 eq_refl eq_refl).
Defined.

Lemma register_keeps_handler_witness :
  let out := register Example.objects
               (PDict [("auth", PObj 2%positive); ("mail", PNone)])
               Example.restconf "s3cret" initial in
  __mdRegistered (fst out) !! "auth" = Some (Instance 2%positive)
  /\ read Example.codes Example.objects Example.boom (fst out)
          "auth" "ping" (PDict []) None
     = Return (Example.answer "wrapped")
  /\ register Example2.objects (PDict [("db", PObj 2%positive)])
       Example2.restconf "s3cret" initial
     = (set_registered "db" (Instance 2%positive) (set_salt "s3cret" initial),
        Raise ValueError [PStr "no database"]).
Proof.
  assert (Hauth : "auth" ∉ [("mail", PNone)].*1)
    by (apply (bool_decide_unpack _); reflexivity).
  assert (Hdb : "db" ∉ (@nil (string * pyval)).*1)
    by (apply (bool_decide_unpack _); reflexivity).
  pose proof (register_keeps_handler Example.objects Example.restconf
                Example.codes Example.boom [] "auth" 2%positive
                Example.wrapping [("mail", PNone)] "s3cret" initial
                (List.Forall_nil _) eq_refl Hauth) as Hret.
  pose proof (register_keeps_handler Example2.objects Example2.restconf
                Example.codes Example.boom [] "db" 2%positive
                Example2.stillborn [] "s3cret" initial
                (List.Forall_nil _) eq_refl Hdb) as Hexc.
  cbv zeta in Hret, Hexc.
  destruct Hret as (_ & _ & _ & Hentry & Hcall & _).
  destruct Hexc as (Hraise & _).
  split; [exact Hentry|]. split.
  - exact (eq_trans (Hcall "read" "ping" (PDict []) None) eq_refl).
  - exact (Hraise ValueError [PStr "no database"] eq_refl).
Defined.

(** C8 (counterexample).  The handler bound to "auth" has an [initialise]
    that returns object 3 in its place.  After [register] the entry for
    "auth" is still object 2, the one passed in, and a call is answered by
    it. *)
Lemma register_drops_initialise_result :
  let out := register Example.objects (PDict [("auth", PObj 2%positive)])
               Example.restconf "s3cret" initial in
  snd out = Return tt
  /\ svc_initialise Example.wrapping 2%positive = Return (PObj 3%positive)
  /\ __mdRegistered (fst out) !! "auth" = Some (Instance 2%positive)
  /\ __mdRegistered (fst out) !! "auth" <> Some (Instance 3%positive)
  /\ read Example.codes Example.objects Example.boom (fst out)
          "auth" "ping" (PDict []) None
     = Return (Example.answer "wrapped").
Proof. repeat split; try reflexivity. discriminate. Qed.

Lemma register_not_atomic_witness :
  let out := register Example.objects
               (PDict [("auth", PObj 1%positive); ("sms", PNone);
                       ("mail", PNone)])
               Example.restconf "fresh" Example.started in
  snd out = Raise ValueError [PStr "services.sms"]
  /\ __msSalt (fst out) = Some "fresh"
  /\ __mdRegistered (fst out) !! "auth" = Some (Instance 1%positive).
Proof.
  destruct (register_not_atomic Example.objects Example.restconf
              [("auth", PObj 1%positive)] "sms" PNone [("mail", PNone)]
              "fresh" Example.started)
    as (Hraise & Hsalt & Hkept & _).
  - apply NoDup_singleton.
  - repeat constructor. exists (Instance 1%positive). reflexivity.
  - reflexivity.
  - split; [exact Hraise|]. split; [exact Hsalt|].
    exact (proj2 (Hkept "auth" (PObj 1%positive) (list_elem_of_here _ _))).
Defined.


(** * More of the module *)

(** ** Dispatch inside a Service *)

Lemma pathToMethod_suffix (path append : string) :
  pathToMethod path append
  = (name ← pathToMethod path ""; Return (name +:+ append)).
Proof.
  unfold pathToMethod. destruct (pathToMethod_loop path ""); cbn; try reflexivity.
  now rewrite append_nil_r.
Qed.

Section DispatchFacts.

Context (Errors : ErrorCodes).

(** X1.  A path that resolves to a name the handler has no method for is
    answered, under each of the four actions, with an Effect whose error
    has the code SERVICE_NO_SUCH_NOUN and names the HTTP verb of the action
    and the path: POST for create, DELETE for delete, GET for read, PUT
    for update.  Nothing is raised. *)
Theorem dispatch_no_such_noun (self : ServiceDef) (path name : string)
    (data : pyval) (sesh : option Sesh) :
  pathToMethod path "" = Return name ->
  (svc_method self (name +:+ "_create") = None ->
   Service_create Errors self path data sesh
   = Return (failure (SERVICE_NO_SUCH_NOUN Errors) ("POST " +:+ path)))
  /\ (svc_method self (name +:+ "_delete") = None ->
      Service_delete Errors self path data sesh
      = Return (failure (SERVICE_NO_SUCH_NOUN Errors) ("DELETE " +:+ path)))
  /\ (svc_method self (name +:+ "_read") = None ->
      Service_read Errors self path data sesh
      = Return (failure (SERVICE_NO_SUCH_NOUN Errors) ("GET " +:+ path)))
  /\ (svc_method self (name +:+ "_update") = None ->
      Service_update Errors self path data sesh
      = Return (failure (SERVICE_NO_SUCH_NOUN Errors) ("PUT " +:+ path))).
Proof.
  intros Hname.
  unfold Service_create, Service_delete, Service_read, Service_update,
    Service_dispatch.
  rewrite (pathToMethod_suffix path "_create"),
    (pathToMethod_suffix path "_delete"),
    (pathToMethod_suffix path "_read"),
    (pathToMethod_suffix path "_update"), Hname.
  cbn [mbind result_mbind result_bind].
  repeat split; intros ->; reflexivity.
Qed.

(** X2.  What a method does comes back through the dispatch as follows: a
    value it returns is returned as it is; an EffectException it raises is
    caught and the Effect it carries is returned; any other exception is
    raised to the caller unchanged. *)
Theorem dispatch_outcomes (suffix verb : string) (self : ServiceDef)
    (path m : string) (data : pyval) (sesh : option Sesh)
    (f : pyval -> option Sesh -> result pyval) :
  pathToMethod path suffix = Return m ->
  svc_method self m = Some f ->
  (forall v, f data sesh = Return v ->
     Service_dispatch Errors suffix verb self path data sesh = Return v)
  /\ (forall e more, f data sesh = Raise EffectException (e :: more) ->
        Service_dispatch Errors suffix verb self path data sesh = Return e)
  /\ (forall cls args, cls <> EffectException ->
        f data sesh = Raise cls args ->
        Service_dispatch Errors suffix verb self path data sesh
        = Raise cls args).
Proof.
  intros Hm Hf. unfold Service_dispatch. rewrite Hm.
  cbn [mbind result_mbind result_bind]. rewrite Hf.
  repeat split.
  - intros v ->. reflexivity.
  - intros e more ->. reflexivity.
  - intros cls args Hne ->. unfold try_except.
    destruct (decide (cls = EffectException)); [contradiction | reflexivity].
Qed.

(** X3.  A path that ends in an unpaired separator never reaches the
    look-up of a method: whatever the handler and the action, the dispatch
    raises IndexError to its caller and returns no Effect. *)
Theorem dispatch_unpaired_separator (suffix verb : string) (self : ServiceDef)
    (path : string) (data : pyval) (sesh : option Sesh) :
  Py.ascii_only path = true ->
  Nat.odd (trailing_separators path) = true ->
  Service_dispatch Errors suffix verb self path data sesh
  = Raise IndexError [PStr "string index out of range"].
Proof.
  intros Hasc Hodd. unfold Service_dispatch, pathToMethod.
  pose proof (pathToMethod_loop_outcome _ path "" (le_n _) Hasc) as H.
  rewrite Hodd in H. now rewrite H.
Qed.

End DispatchFacts.

Lemma dispatch_no_such_noun_witness :
  Service_update Example.codes Example2.moody "user/permission"
    (PDict []) None
  = Return (failure 1005 "PUT user/permission").
Proof.
  exact (proj2 (proj2 (proj2
           (dispatch_no_such_noun Example.codes Example2.moody
              "user/permission" "userPermission" (PDict []) None eq_refl)))
           eq_refl).
Defined.

Lemma dispatch_outcomes_witness :
  Service_read Example.codes Example2.moody "user/permission" (PDict []) None
  = Return (failure 7 "denied")
  /\ Service_read Example.codes Example2.moody "crash" (PDict []) None
     = Raise ValueError [PStr "broken"].
Proof.
  split.
  - refine (proj1 (proj2 (dispatch_outcomes Example.codes "_read" "GET"
                     Example2.moody "user/permission" "userPermission_read"
                     (PDict []) None _ eq_refl eq_refl)) _ [] eq_refl).
  - refine (proj2 (proj2 (dispatch_outcomes Example.codes "_read" "GET"
                     Example2.moody "crash" "crash_read"
                     (PDict []) None _ eq_refl eq_refl))
              ValueError [PStr "broken"] _ eq_refl).
    discriminate.
Defined.

Lemma dispatch_unpaired_separator_witness :
  Service_read Example.codes Example2.moody "user/" (PDict []) None
  = Raise IndexError [PStr "string index out of range"].
Proof.
  exact (dispatch_unpaired_separator Example.codes "_read" "GET"
           Example2.moody "user/" (PDict []) None eq_refl eq_refl).
Defined.


(** ** Calls through the router *)

Section CallFacts.

Context (Errors : ErrorCodes).
Context (objects : gmap oid ServiceDef).

(** X4.  A call to a service registered with a local instance makes no
    HTTP request: its outcome is the same whatever the transport does.
    With verbose mode off, each of [create], [delete], [read] and [update]
    is exactly the instance's method of that name applied to the path,
    the data and the session. *)
Theorem request_local (t1 t2 : Request -> reply) (st : state)
    (service : string) (v : oid) (self : ServiceDef) (action path : string)
    (data : pyval) (sesh : option Sesh) :
  __mdRegistered st !! service = Some (Instance v) ->
  objects !! v = Some self ->
  __request Errors objects t1 st service action path data sesh
  = __request Errors objects t2 st service action path data sesh
  /\ (__mbVerbose st = false ->
      create Errors objects t1 st service path data sesh
      = Service_create Errors self path data sesh
      /\ delete Errors objects t1 st service path data sesh
         = Service_delete Errors self path data sesh
      /\ read Errors objects t1 st service path data sesh
         = Service_read Errors self path data sesh
      /\ update Errors objects t1 st service path data sesh
         = Service_update Errors self path data sesh).
Proof.
  intros Hreg Hobj. split.
  - unfold __request. now rewrite Hreg.
  - intros Hv. unfold create, delete, read, update, __request, call_action.
    rewrite Hreg, Hobj, Hv. cbn [String.eqb Ascii.eqb Bool.eqb].
    cbn [mbind result_mbind result_bind].
    repeat split.
    + now destruct (Service_create Errors self path data sesh).
    + now destruct (Service_delete Errors self path data sesh).
    + now destruct (Service_read Errors self path data sesh).
    + now destruct (Service_update Errors self path data sesh).
Qed.

Context (transport : Request -> reply).

(** X5.  When the peer cannot be reached, a remote call returns an Effect
    whose error has the code SERVICE_UNREACHABLE and the message of the
    connection error; nothing is raised. *)
Theorem request_unreachable st service url action path data sesh verb sData msg :
  __mdRegistered st !! service = Some (Url url) ->
  __funcToRequest action = Some verb ->
  Json.dumps data = Return sData ->
  transport (outgoing verb url path sData sesh) = Refused msg ->
  __request Errors objects transport st service action path data sesh
  = Return (failure (SERVICE_UNREACHABLE Errors) msg).
Proof.
  intros Hreg Hact Hdata Htr. unfold __request. rewrite Hreg.
  rewrite (request_remote_known _ _ _ _ _ _ _ _ _ _ Hact Hdata).
  unfold outgoing in Htr. now rewrite Htr.
Qed.

(** X6.  A 200 answer whose Content-Type, lower-cased, is not
    [application/json; charset=utf-8] gives an Effect whose error has the
    code SERVICE_CONTENT_TYPE and, as message, the content type as the
    peer sent it; the body is not looked at. *)
Theorem request_content_type st service url action path data sesh verb sData
    oRes ct lct :
  __mdRegistered st !! service = Some (Url url) ->
  __funcToRequest action = Some verb ->
  Json.dumps data = Return sData ->
  transport (outgoing verb url path sData sesh) = Responds oRes ->
  status_code oRes = 200 ->
  header_get (headers oRes) "Content-Type" = Some ct ->
  Py.lower ct = Return lct ->
  lct <> "application/json; charset=utf-8" ->
  __request Errors objects transport st service action path data sesh
  = Return (failure (SERVICE_CONTENT_TYPE Errors) ct).
Proof.
  intros Hreg Hact Hdata Htr Hst Hct Hlow Hne. unfold __request. rewrite Hreg.
  rewrite (request_remote_known _ _ _ _ _ _ _ _ _ _ Hact Hdata).
  unfold outgoing in Htr. rewrite Htr, Hst. cbn [Z.eqb Pos.eqb negb].
  rewrite Hct, Hlow. cbn [mbind result_mbind result_bind].
  destruct (String.eqb_spec lct "application/json; charset=utf-8");
    [contradiction | reflexivity].
Qed.

(** X7.  A 200 answer that carries no Content-Type header is not turned
    into an Effect: the look-up of the header raises KeyError, which
    reaches the caller. *)
Theorem request_no_content_type st service url action path data sesh verb
    sData oRes :
  __mdRegistered st !! service = Some (Url url) ->
  __funcToRequest action = Some verb ->
  Json.dumps data = Return sData ->
  transport (outgoing verb url path sData sesh) = Responds oRes ->
  status_code oRes = 200 ->
  header_get (headers oRes) "Content-Type" = None ->
  __request Errors objects transport st service action path data sesh
  = Raise KeyError [PStr "content-type"].
Proof.
  intros Hreg Hact Hdata Htr Hst Hct. unfold __request. rewrite Hreg.
  rewrite (request_remote_known _ _ _ _ _ _ _ _ _ _ Hact Hdata).
  unfold outgoing in Htr. rewrite Htr, Hst. cbn [Z.eqb Pos.eqb negb].
  now rewrite Hct.
Qed.

(** X8.  When the peer answers 200 with the JSON content type, in any
    letter case, and a body that is the text of an Effect ([str(e)], with
    values JSON represents), the call returns that Effect, field for
    field, in verbose mode or not. *)
Theorem request_success st service url action path data sesh verb sData
    oRes ct e :
  __mdRegistered st !! service = Some (Url url) ->
  __funcToRequest action = Some verb ->
  Json.dumps data = Return sData ->
  transport (outgoing verb url path sData sesh) = Responds oRes ->
  status_code oRes = 200 ->
  header_get (headers oRes) "Content-Type" = Some ct ->
  Py.lower ct = Return "application/json; charset=utf-8" ->
  Effect_json_ok e = true ->
  Effect_str e = Return (text oRes) ->
  __request Errors objects transport st service action path data sesh
  = Return (PEffect e).
Proof.
  intros Hreg Hact Hdata Htr Hst Hct Hlow Hok Hstr. unfold __request.
  rewrite Hreg, (request_remote_known _ _ _ _ _ _ _ _ _ _ Hact Hdata).
  unfold outgoing in Htr. rewrite Htr, Hst. cbn [Z.eqb Pos.eqb negb].
  rewrite Hct, Hlow. cbn [mbind result_mbind result_bind].
  destruct (loads_dumps _ (Effect_dRet_ok e Hok)) as (s & Hd & Hl).
  unfold Effect_str in Hstr. rewrite Hd in Hstr. injection Hstr as <-.
  rewrite String.eqb_refl. cbn [negb]. unfold Effect_fromJSON. rewrite Hl.
  cbn [try_except mbind result_mbind result_bind].
  rewrite Effect_fromDict_dRet. cbn [mbind result_mbind result_bind].
  destruct (__mbVerbose st); [|reflexivity].
  cbn [str_for_print]. unfold Effect_str. now rewrite Hd.
Qed.

(** X9.  A remote call reaches the transport with one request only: the
    verb of the action, the registered URL followed by the path, the JSON
    text of the data, and the headers Content-Type, Content-Length (the
    length of that text) and, when a session came with the call,
    Authorization with the session's id.  Two transports that answer this
    request alike give the call the same outcome. *)
Theorem request_outgoing (t1 t2 : Request -> reply) st service url action
    path data sesh verb sData :
  __mdRegistered st !! service = Some (Url url) ->
  __funcToRequest action = Some verb ->
  Json.dumps data = Return sData ->
  t1 (outgoing verb url path sData sesh) = t2 (outgoing verb url path sData sesh) ->
  __request Errors objects t1 st service action path data sesh
  = __request Errors objects t2 st service action path data sesh
  /\ req_headers (outgoing verb url path sData sesh)
     = ([("Content-Type", "application/json; charset=utf-8");
         ("Content-Length", Py.str_int (Py.len sData))]
        ++ match sesh with
           | Some s => [("Authorization", sesh_id s)]
           | None => []
           end)%list.
Proof.
  intros Hreg Hact Hdata Heq. split.
  - unfold __request. rewrite Hreg.
    rewrite !(request_remote_known _ _ _ _ _ _ _ _ _ _ Hact Hdata).
    unfold outgoing in Heq. now rewrite Heq.
  - now destruct sesh.
Qed.

(** X10.  Turning verbose mode on does not change what a call returns, as
    long as the two values the verbose lines print can be written: the
    data, before the call is made, and the value returned, after it.
    (When one of them is an Effect that holds something JSON cannot
    write, or an exception around such an Effect, the print raises in
    place of the return.) *)
Theorem request_verbose st service action path data sesh v :
  __request Errors objects transport (verbose false st)
    service action path data sesh = Return v ->
  str_for_print data = Return tt ->
  str_for_print v = Return tt ->
  __request Errors objects transport (verbose true st)
    service action path data sesh = Return v.
Proof.
  unfold __request. cbn [verbose __mdRegistered __mbVerbose].
  destruct (__mdRegistered st !! service) as [[o | url]|]; [| |auto].
  - intros Hoff ->. cbn [mbind result_mbind result_bind] in *.
    destruct (call_action Errors objects o action path data sesh);
      cbn [mbind result_mbind result_bind] in *; try discriminate Hoff.
    injection Hoff as ->. intros ->. reflexivity.
  - intros Hoff Hdata.
    assert (Hsame :
      forall r,
        request_remote Errors transport (verbose false st) url action path
          data sesh = Return r ->
        request_remote Errors transport (verbose true st) url action path
          data sesh = Return r).
    { intros r. unfold request_remote, func_for, key_error.
      cbn [verbose __mbVerbose]. rewrite Hdata.
      destruct (__funcToRequest action) as [verb|];
        cbn [mbind result_mbind result_bind try_except]; [auto|].
      destruct (decide (KeyError = KeyError)); [|contradiction].
      cbn [mbind result_mbind result_bind error_effect].
      destruct (Json.dumps data); cbn [mbind result_mbind result_bind];
        discriminate. }
    revert Hoff.
    destruct (request_remote Errors transport (verbose false st) url action
                path data sesh) as [r| |] eqn:E;
      cbn [mbind result_mbind result_bind]; try discriminate.
    rewrite (Hsame r eq_refl). cbn [mbind result_mbind result_bind].
    destruct r as [x | x]; [auto|].
    intros [= ->] ->. reflexivity.
Qed.

End CallFacts.


(** Induction on values that goes into every value held by another. *)
Section PyvalDeepInduction.

Context (P : pyval -> Prop).
Context (HNone : P PNone).
Context (HBool : forall b, P (PBool b)).
Context (HInt : forall z, P (PInt z)).
Context (HStr : forall s, P (PStr s)).
Context (HBytes : forall b, P (PBytes b)).
Context (HTuple : forall l, Forall P l -> P (PTuple l)).
Context (HList : forall l, Forall P l -> P (PList l)).
Context (HDict : forall d, Forall (fun kv => P (snd kv)) d -> P (PDict d)).
Context (HExc : forall cls args, Forall P args -> P (PExc cls args)).
Context (HEffect : forall e, P (PEffect e)).
Context (HObj : forall o, P (PObj o)).

Lemma pyval_deep_ind : forall v, P v.
Proof.
  fix IH 1. intros [ | b | z | s | b | l | l | d | cls args | e | o].
  - exact HNone.
  - exact (HBool b).
  - exact (HInt z).
  - exact (HStr s).
  - exact (HBytes b).
  - apply HTuple. induction l as [|x l IHl]; constructor; [apply IH | exact IHl].
  - apply HList. induction l as [|x l IHl]; constructor; [apply IH | exact IHl].
  - apply HDict. induction d as [|kv d IHd]; constructor; [apply IH | exact IHd].
  - apply HExc.
    induction args as [|x l IHl]; constructor; [apply IH | exact IHl].
  - exact (HEffect e).
  - exact (HObj o).
Qed.

End PyvalDeepInduction.

(** The encoder returns a text or raises TypeError; it does nothing else. *)
Lemma dumps_items_outcome (l : list pyval) :
  Forall (fun v => writes_or_TypeError (Json.dumps v)) l ->
  writes_or_TypeError (Json.dumps_items Json.dumps l).
Proof.
  induction 1 as [|x r Hx Hr IH]; [left; eauto|].
  rewrite dumps_items_cons.
  destruct Hx as [[sx ->] | ->]; [|right; reflexivity].
  cbn [mbind result_mbind result_bind].
  destruct r as [|y r']; [left; eauto|].
  destruct IH as [[sr ->] | ->]; [left; eauto | right; reflexivity].
Qed.

Lemma dumps_members_outcome (d : list (string * pyval)) :
  Forall (fun kv => writes_or_TypeError (Json.dumps (snd kv))) d ->
  writes_or_TypeError (Json.dumps_members Json.dumps d).
Proof.
  induction 1 as [|[k x] r Hx Hr IH]; [left; eauto|].
  rewrite dumps_members_cons. cbn [snd] in Hx.
  destruct Hx as [[sx ->] | ->]; [|right; reflexivity].
  cbn [mbind result_mbind result_bind].
  destruct r as [|y r']; [left; eauto|].
  destruct IH as [[sr ->] | ->]; [left; eauto | right; reflexivity].
Qed.

Lemma dumps_outcome (v : pyval) : writes_or_TypeError (Json.dumps v).
Proof.
  induction v as [ | b | z | s | b | l IH | l IH | d IH | cls args _ | e | o ]
    using pyval_deep_ind; try (right; reflexivity); try (left; eauto; fail).
  - destruct b; left; eauto.
  - cbn [Json.dumps].
    destruct (dumps_items_outcome l IH) as [[s ->] | ->];
      [left; eauto | right; reflexivity].
  - cbn [Json.dumps].
    destruct (dumps_items_outcome l IH) as [[s ->] | ->];
      [left; eauto | right; reflexivity].
  - cbn [Json.dumps].
    destruct (dumps_members_outcome d IH) as [[s ->] | ->];
      [left; eauto | right; reflexivity].
Qed.

(** So does [str]: whatever it is given, it returns or raises the encoder's
    TypeError. *)
Lemma str_for_print_outcome (v : pyval) :
  str_for_print v = Return tt \/ str_for_print v = Raise TypeError [].
Proof.
  induction v as [ | b | z | s | b | l _ | l _ | d _ | cls args IH | e | o ]
    using pyval_deep_ind; try (left; reflexivity).
  - destruct args as [|a [|b more]]; [left; reflexivity | |].
    + inversion IH as [|? ? Ha _]; subst.
      destruct cls; try exact Ha; left; reflexivity.
    + inversion IH as [|? ? Ha Hrest]; subst.
      inversion Hrest as [|? ? Hb _]; subst.
      destruct cls; try (left; reflexivity).
      cbn [str_for_print]. destruct (length more <=? 3)%nat; [|left; reflexivity].
      destruct Ha as [-> | ->]; [exact Hb | right; reflexivity].
  - cbn [str_for_print]. unfold Effect_str.
    destruct (dumps_outcome (PDict (Effect_dRet e))) as [[s ->] | ->];
      [left | right]; reflexivity.
Qed.

Section VerboseFacts.

Context (Errors : ErrorCodes).
Context (objects : gmap oid ServiceDef).
Context (transport : Request -> reply).

(** X11.  Verbose mode can change the outcome of a call: when a local
    handler returns an Effect that holds a value JSON cannot write, the
    call returns that Effect with verbose mode off, and with verbose mode
    on the call raises the encoder's exception in its place (at the
    closing print, or already at the opening one when the data cannot be
    written either). *)
Theorem request_verbose_unprintable st service v action path data sesh e
    cls args :
  __mdRegistered st !! service = Some (Instance v) ->
  call_action Errors objects v action path data sesh = Return (PEffect e) ->
  Effect_str e = Raise cls args ->
  __request Errors objects transport (verbose false st)
    service action path data sesh = Return (PEffect e)
  /\ __request Errors objects transport (verbose true st)
       service action path data sesh = Raise cls args.
Proof.
  intros Hreg Hcall Hstr. unfold __request.
  cbn [verbose __mdRegistered __mbVerbose]. rewrite Hreg, Hcall.
  split; [reflexivity|].
  assert (Hcls : Raise (A := unit) cls args = Raise TypeError []).
  { unfold Effect_str in Hstr.
    destruct (dumps_outcome (PDict (Effect_dRet e))) as [[s Hs] | Hs];
      rewrite Hs in Hstr; [discriminate Hstr|].
    now injection Hstr as <- <-. }
  destruct (str_for_print_outcome data) as [-> | ->];
    cbn [mbind result_mbind result_bind str_for_print];
    [rewrite Hstr; reflexivity | now injection Hcls as -> ->].
Qed.

End VerboseFacts.

Lemma request_local_witness :
  read Example.codes Example2.objects Example2.down Example2.started
       "auth" "ping" (PDict []) None
  = Service_read Example.codes Example2.moody "ping" (PDict []) None.
Proof.
  exact (proj1 (proj2 (proj2
           (proj2 (request_local Example.codes Example2.objects
                     Example2.down Example2.well Example2.started "auth"
                     1%positive Example2.moody "read" "ping" (PDict []) None
                     eq_refl eq_refl) eq_refl)))).
Defined.

Lemma request_unreachable_witness :
  read Example.codes Example2.objects Example2.down Example2.started
       "mail" "/inbox" (PDict []) None
  = Return (failure 1003 "connection refused").
Proof.
  exact (request_unreachable Example.codes Example2.objects Example2.down
           Example2.started "mail" "http://mail.local" "read" "/inbox"
           (PDict []) None "GET" "{}" "connection refused"
           eq_refl eq_refl eq_refl eq_refl).
Defined.

Lemma request_content_type_witness :
  read Example.codes Example2.objects Example2.page Example2.started
       "mail" "/inbox" (PDict []) None
  = Return (failure 1002 "Text/HTML").
Proof.
  refine (request_content_type Example.codes Example2.objects Example2.page
            Example2.started "mail" "http://mail.local" "read" "/inbox"
            (PDict []) None "GET" "{}"
            {| status_code := 200; content := "<html>"; text := "<html>";
               headers := [("content-type", "Text/HTML")] |}
            "Text/HTML" "text/html"
            eq_refl eq_refl eq_refl eq_refl eq_refl eq_refl eq_refl _).
  discriminate.
Defined.

Lemma request_no_content_type_witness :
  read Example.codes Example2.objects Example2.untyped Example2.started
       "mail" "/inbox" (PDict []) None
  = Raise KeyError [PStr "content-type"].
Proof.
  exact (request_no_content_type Example.codes Example2.objects
           Example2.untyped Example2.started "mail" "http://mail.local"
           "read" "/inbox" (PDict []) None "GET" "{}"
           {| status_code := 200; content := "{}"; text := "{}";
              headers := [("Server", "nginx")] |}
           eq_refl eq_refl eq_refl eq_refl eq_refl eq_refl).
Defined.

Lemma request_success_witness :
  read Example.codes Example2.objects Example2.well Example2.started
       "mail" "/inbox" (PDict []) None
  = Return (PEffect Example2.pong)
  /\ Effect_dataExists Example2.pong = true.
Proof.
  split; [|reflexivity].
  exact (request_success Example.codes Example2.objects Example2.well
           Example2.started "mail" "http://mail.local" "read" "/inbox"
           (PDict []) None "GET" "{}"
           {| status_code := 200; content := Example2.pong_text;
              text := Example2.pong_text;
              headers := [("Content-Type", "Application/JSON; Charset=UTF-8")] |}
           "Application/JSON; Charset=UTF-8" Example2.pong
           eq_refl eq_refl eq_refl eq_refl eq_refl eq_refl eq_refl eq_refl
           eq_refl).
Defined.

Lemma request_outgoing_witness :
  read Example.codes Example2.objects Example2.strict Example2.started
       "mail" "/inbox" (PDict []) (Some {| sesh_id := "abc123" |})
  = read Example.codes Example2.objects Example2.well Example2.started
         "mail" "/inbox" (PDict []) (Some {| sesh_id := "abc123" |}).
Proof.
  exact (proj1 (request_outgoing Example.codes Example2.objects
                  Example2.strict Example2.well Example2.started "mail"
                  "http://mail.local" "read" "/inbox" (PDict [])
                  (Some {| sesh_id := "abc123" |}) "GET" "{}"
                  eq_refl eq_refl eq_refl eq_refl)).
Defined.

Lemma request_verbose_witness :
  read Example.codes Example2.objects Example2.down
       (verbose true Example2.started) "auth" "ping" (PDict []) None
  = Return (Example.answer "pong").
Proof.
  exact (request_verbose Example.codes Example2.objects Example2.down
           Example2.started "auth" "read" "ping" (PDict []) None
           (Example.answer "pong") eq_refl eq_refl eq_refl).
Defined.

Lemma request_verbose_unprintable_witness :
  read Example.codes Example2.objects Example2.down
       (verbose false Example2.started) "auth" "raw" (PDict []) None
  = Return (PEffect (mkEffect (Some (PBytes "raw")) None None))
  /\ read Example.codes Example2.objects Example2.down
          (verbose true Example2.started) "auth" "raw" (PDict []) None
     = Raise TypeError [].
Proof.
  exact (request_verbose_unprintable Example.codes Example2.objects
           Example2.down Example2.started "auth" 1%positive "read" "raw"
           (PDict []) None (mkEffect (Some (PBytes "raw")) None None)
           TypeError [] eq_refl eq_refl eq_refl).
Defined.


(** ** More on the Effect class *)

(** X12.  After a successful construction the three predicates tell which
    arguments were given: [dataExists()] is true exactly when [data] was not
    None, [warningExists()] exactly when [warning] was not None, and, for
    an [error] that is not an exception, [errorExists()] exactly when
    [error] was not None. *)
Theorem Effect_init_predicates (data error warning : pyval) (e : Effect) :
  Effect_init data error warning = Return e ->
  Effect_dataExists e = negb (is_none data)
  /\ Effect_warningExists e = negb (is_none warning)
  /\ ((forall cls args, error <> PExc cls args) ->
      Effect_errorExists e = negb (is_none error)).
Proof.
  intros H. unfold Effect_init in H.
  assert (Hg : forall v, exists_not_none (given v) = negb (is_none v))
    by (intros []; reflexivity).
  destruct error as [ | b | z | s | b | l | l | d | cls args | e' | o ];
    cbn in H; try discriminate H;
    try (injection H as <-; repeat split; try apply Hg; reflexivity).
  - destruct l as [|c [|m more]]; try discriminate H.
    injection H as <-. repeat split; try apply Hg; reflexivity.
  - destruct args as [|a rest]; [discriminate H|].
    assert (He : exists x, e = mkEffect (given data) x (given warning)).
    { destruct a; try (destruct rest; [|discriminate H]);
        try (injection H as <-; eauto).
      destruct (e_error e0); [|discriminate H]. injection H as <-; eauto. }
    destruct He as [x ->]. repeat split; try apply Hg.
    intros Hno. now destruct (Hno cls (a :: rest)).
Qed.

Lemma Effect_init_predicates_witness :
  Effect_dataExists (mkEffect None (Some (code_msg (PInt 3) (PStr ""))) None)
  = false
  /\ Effect_errorExists
       (mkEffect None (Some (code_msg (PInt 3) (PStr ""))) None) = true.
Proof.
  destruct (Effect_init_predicates PNone (PInt 3) PNone
              (mkEffect None (Some (code_msg (PInt 3) (PStr ""))) None)
              eq_refl) as (Hd & _ & He).
  split; [exact Hd|]. apply He. discriminate.
Defined.

(** X13.  Errors chain through EffectException: an Effect built from an
    EffectException that was itself built from an error has the error that
    building from that error directly gives.  An EffectException built
    without an error cannot be chained: the Effect inside has no error
    attribute and the constructor raises AttributeError. *)
Theorem Effect_init_chains (data error warning d0 w0 exc : pyval) :
  EffectException_init d0 error w0 = Return exc ->
  (is_none error = false ->
   exists x,
     normalize_error error = Return x
     /\ Effect_init data exc warning
        = Return (mkEffect (given data) (Some x) (given warning)))
  /\ (is_none error = true ->
      Effect_init data exc warning
      = Raise AttributeError [PStr "'Effect' object has no attribute 'error'"]).
Proof.
  unfold EffectException_init, Effect_init. intros H. split; intros Hn.
  - destruct error; try discriminate Hn;
      destruct (normalize_error _) as [x| |] eqn:E;
      cbn [mbind result_mbind result_bind] in H; try discriminate H;
      injection H as <-; exists x; (split; [reflexivity|]);
      cbn [mbind result_mbind result_bind normalize_error e_error];
      reflexivity.
  - destruct error; try discriminate Hn.
    cbn [mbind result_mbind result_bind] in H. injection H as <-.
    reflexivity.
Qed.

Lemma Effect_init_chains_witness :
  Effect_init PNone
    (PExc EffectException
       [PEffect (mkEffect None (Some (code_msg (PInt 5) (PStr "gone"))) None)])
    (PStr "late")
  = Return (mkEffect None (Some (code_msg (PInt 5) (PStr "gone")))
                     (Some (PStr "late")))
  /\ Effect_init PNone
       (PExc EffectException [PEffect (mkEffect (Some (PInt 1)) None None)])
       PNone
     = Raise AttributeError [PStr "'Effect' object has no attribute 'error'"].
Proof.
  split.
  - destruct (proj1 (Effect_init_chains PNone
                       (PTuple [PInt 5; PStr "gone"]) (PStr "late")
                       PNone PNone _ eq_refl) eq_refl) as (x & Hx & H).
    injection Hx as <-. exact H.
  - exact (proj2 (Effect_init_chains PNone PNone PNone (PInt 1) PNone
                    _ eq_refl) eq_refl).
Defined.

(** X14.  [Effect.fromJSON] fails in two ways: on a text that is not JSON
    it raises ValueError with 'val' as first argument; on a text that is
    JSON but not an object (a list, a string, a number, true, false, null)
    the look-up of 'data' raises TypeError, which is not caught. *)
Theorem Effect_fromJSON_failures (val : string) :
  (forall args, Json.loads val = Raise ValueError args ->
     Effect_fromJSON val = Raise ValueError [PStr "val"])
  /\ (forall v, Json.loads val = Return v ->
        match v with PDict _ | PObj _ => False | _ => True end ->
        Effect_fromJSON val = Raise TypeError []).
Proof.
  unfold Effect_fromJSON. split.
  - intros args ->. reflexivity.
  - intros v -> Hv. destruct v; try contradiction; reflexivity.
Qed.

Lemma Effect_fromJSON_failures_witness :
  Effect_fromJSON "{oops" = Raise ValueError [PStr "val"]
  /\ Effect_fromJSON "[1, 2]" = Raise TypeError [].
Proof.
  split.
  - exact (proj1 (Effect_fromJSON_failures "{oops") [] eq_refl).
  - exact (proj2 (Effect_fromJSON_failures "[1, 2]")
             (PList [PInt 1; PInt 2]) eq_refl I).
Defined.

(** X15.  [Effect.fromDict] keeps the keys data, error and warning and
    nothing else: the dict that [__str__] writes for the result holds, under
    each of the three keys, what the given dict held there (also None), and
    no other key. *)
Theorem Effect_fromDict_keeps (d : list (string * pyval)) :
  exists e,
    Effect_fromDict (PDict d) = Return e
    /\ forall k,
         dict_get (Effect_dRet e) k
         = if String.eqb k "data" || String.eqb k "error"
              || String.eqb k "warning"
           then dict_get d k else None.
Proof.
  eexists. split; [reflexivity|]. intros k.
  unfold Effect_dRet. cbn [e_data e_error e_warning].
  destruct (String.eqb_spec k "data") as [->|Hd];
    [ destruct (dict_get d "data"), (dict_get d "error"),
        (dict_get d "warning"); reflexivity |].
  destruct (String.eqb_spec k "error") as [->|He];
    [ destruct (dict_get d "data"), (dict_get d "error"),
        (dict_get d "warning"); reflexivity |].
  destruct (String.eqb_spec k "warning") as [->|Hw];
    [ destruct (dict_get d "data"), (dict_get d "error"),
        (dict_get d "warning"); reflexivity |].
  cbn [orb].
  assert (Hk : forall k', k <> k' -> String.eqb k' k = false).
  { intros k' Hne. destruct (String.eqb_spec k' k); congruence. }
  destruct (dict_get d "data"), (dict_get d "error"), (dict_get d "warning");
    match goal with
    | |- dict_get ?l k = _ => let l' := eval cbv in l in change l with l'
    end;
    cbn [dict_get]; rewrite ?Hk by assumption; reflexivity.
Qed.


(** ** More on the internal key *)

Lemma split_nonempty (sep : ascii) (s : string) : Py.split sep s <> [].
Proof.
  destruct s as [|c s]; cbn [Py.split]; [discriminate|].
  destruct (Ascii.eqb c sep); [discriminate|].
  destruct (Py.split sep s); discriminate.
Qed.

Lemma split_one (sep : ascii) (s : string) : forall b,
  Py.split sep s = [b] -> s = b.
Proof.
  induction s as [|c s IH]; intros b H; cbn [Py.split] in H.
  - now injection H.
  - destruct (Ascii.eqb c sep).
    + injection H as _ H. now destruct (split_nonempty sep s).
    + destruct (Py.split sep s) as [|h t] eqn:E.
      * now destruct (split_nonempty sep s).
      * injection H as <- ->. f_equal. now apply IH.
Qed.

Lemma split_two (sep : ascii) (s : string) : forall a b,
  Py.split sep s = [a; b] -> s = a +:+ String sep b.
Proof.
  induction s as [|c s IH]; intros a b H; cbn [Py.split] in H.
  - discriminate H.
  - destruct (Ascii.eqb_spec c sep) as [->|Hne].
    + injection H as <- H. cbn [String.append]. f_equal.
      now apply split_one with (sep := sep).
    + destruct (Py.split sep s) as [|h t] eqn:E; [discriminate H|].
      injection H as <- ->. cbn [String.append]. f_equal. now apply IH.
Qed.

(** X16.  Checking a key never raises: for every string the check returns
    True or False, with or without a salt.  A string without a colon, and a
    key that is bytes or an int instead of a string, is answered False. *)
Theorem internalKey_check_total (st : state) (iTime : Z) (key : string) :
  (exists b, internalKey st iTime (PStr key) = Return (PBool b))
  /\ (Py.contains_char ":" key = false ->
      internalKey st iTime (PStr key) = Return (PBool false))
  /\ internalKey st iTime (PBytes key) = Return (PBool false)
  /\ forall z, internalKey st iTime (PInt z) = Return (PBool false).
Proof.
  assert (Htot : exists b, internalKey st iTime (PStr key) = Return (PBool b)).
  { unfold internalKey, key_check, value_error, key_digest.
    destruct (Py.split ":" key) as [|a [|b [|c r]]]; eauto.
    destruct (Py.int_of_str b); eauto.
    destruct (iTime - z >? 5); eauto.
    destruct (__msSalt st); cbn; eauto. }
  split; [exact Htot|]. split; [|split; reflexivity].
  intros Hno. unfold internalKey, key_check.
  now rewrite (split_no_sep ":" key Hno).
Qed.

Lemma internalKey_check_total_witness :
  internalKey Example.started 1700000000 (PStr "not a key")
  = Return (PBool false).
Proof.
  exact (proj1 (proj2 (internalKey_check_total Example.started 1700000000
                         "not a key")) eq_refl).
Defined.

(** X17.  A key is accepted only for the right reasons: when the check
    returns True, the key is a digest, a colon and a time text; the time
    text reads as an integer no more than 5 below the clock; and the digest
    is the SHA-1 text computed from that time text and the salt. *)
Theorem internalKey_accepted_only_if (st : state) (iTime : Z) (key : string) :
  internalKey st iTime (PStr key) = Return (PBool true) ->
  exists sSHA1 sTime t,
    key = sSHA1 +:+ ":" +:+ sTime
    /\ Py.int_of_str sTime = Some t
    /\ iTime - t <= 5
    /\ key_digest (__msSalt st) sTime = Return sSHA1.
Proof.
  unfold internalKey, key_check, value_error. intros H.
  destruct (Py.split ":" key) as [|a [|b [|c r]]] eqn:Es; try discriminate H.
  destruct (Py.int_of_str b) as [t|] eqn:Et; [|discriminate H].
  destruct (iTime - t >? 5) eqn:Ew; [discriminate H|].
  destruct (key_digest (__msSalt st) b) as [d| |] eqn:Ed;
    cbn [mbind result_mbind result_bind] in H; try discriminate H.
  injection H as H. apply String.eqb_eq in H. subst d.
  exists a, b, t. split; [exact (split_two ":" key a b Es)|].
  split; [exact Et|]. split; [|exact Ed].
  rewrite Z.gtb_ltb in Ew. apply Z.ltb_ge in Ew. exact Ew.
Qed.

Lemma internalKey_accepted_only_if_witness :
  exists sSHA1 sTime t,
    "2f0ac3e39bc0a9dfa9cb4892b98eeb4a8637f31d:1700000000"
      = sSHA1 +:+ ":" +:+ sTime
    /\ Py.int_of_str sTime = Some t
    /\ 1700000003 - t <= 5
    /\ key_digest (Some "salt") sTime = Return sSHA1.
Proof.
  exact (internalKey_accepted_only_if (set_salt "salt" initial) 1700000003
           "2f0ac3e39bc0a9dfa9cb4892b98eeb4a8637f31d:1700000000" eq_refl).
Defined.

(** X18.  Before any [register] the salt is None: making a key then raises
    AttributeError, and checking a key, whatever the key, returns False. *)
Theorem internalKey_without_salt (st : state) (iTime : Z) :
  __msSalt st = None ->
  internalKey st iTime PNone
  = Raise AttributeError [PStr "'NoneType' object has no attribute 'encode'"]
  /\ forall key, internalKey st iTime (PStr key) = Return (PBool false).
Proof.
  intros Hs. unfold internalKey, key_check, key_digest, value_error.
  rewrite Hs. split; [reflexivity|]. intros key.
  destruct (Py.split ":" key) as [|a [|b [|c r]]]; try reflexivity.
  destruct (Py.int_of_str b); [|reflexivity].
  now destruct (iTime - z >? 5).
Qed.

Lemma internalKey_without_salt_witness :
  internalKey initial 1700000000 PNone
  = Raise AttributeError [PStr "'NoneType' object has no attribute 'encode'"]
  /\ internalKey initial 1700000000
       (PStr "2f0ac3e39bc0a9dfa9cb4892b98eeb4a8637f31d:1700000000")
     = Return (PBool false).
Proof.
  destruct (internalKey_without_salt initial 1700000000 eq_refl) as [Hg Hc].
  split; [exact Hg | apply Hc].
Defined.

Lemma length_hex32 (x : Z) : String.length (Sha1.hex32 x) = 8%nat.
Proof. reflexivity. Qed.

Lemma length_hexdigest (msg : string) :
  String.length (Sha1.hexdigest msg) = 40%nat.
Proof.
  unfold Sha1.hexdigest. destruct (Sha1.digest msg) as [[[[a b] c] d] e].
  now rewrite !length_append, !length_hex32.
Qed.

(** X19.  A key that is made is 40 lower-case hexadecimal digits, a colon,
    and the clock's time in decimal. *)
Theorem internalKey_format (st : state) (salt : string) (iTime : Z) :
  __msSalt st = Some salt ->
  exists sSHA1,
    internalKey st iTime PNone
    = Return (PStr (sSHA1 +:+ ":" +:+ Py.str_int iTime))
    /\ String.length sSHA1 = 40%nat
    /\ Py.all_chars is_hex_digit sSHA1 = true.
Proof.
  intros Hs. unfold internalKey, key_digest. rewrite Hs.
  eexists. split; [reflexivity|]. split.
  - apply length_hexdigest.
  - apply hexdigest_hex.
Qed.

Lemma internalKey_format_witness :
  exists sSHA1,
    internalKey (set_salt "salt" initial) 1700000000 PNone
    = Return (PStr (sSHA1 +:+ ":" +:+ Py.str_int 1700000000))
    /\ String.length sSHA1 = 40%nat
    /\ Py.all_chars is_hex_digit sSHA1 = true.
Proof.
  exact (internalKey_format (set_salt "salt" initial) "salt" 1700000000
           eq_refl).
Defined.


(** ** More on registration *)

Section RegisterMore.

Context (objects : gmap oid ServiceDef).
Context (restconf : gmap string (gmap string string)).

#[local] Abbreviation entry := (binding_entry objects restconf).
#[local] Abbreviation loop :=
  (fun items => register_loop objects items restconf).

Lemma register_loop_keeps (k : string) items : forall st,
  is_Some (__mdRegistered st !! k) ->
  is_Some (__mdRegistered (fst (loop items st)) !! k).
Proof.
  assert (Hset : forall k' r st,
            is_Some (__mdRegistered st !! k) ->
            is_Some (__mdRegistered (set_registered k' r st) !! k)).
  { intros k' r st H. cbn [set_registered __mdRegistered].
    destruct (decide (k' = k)) as [->|Hne].
    - rewrite lookup_insert_eq. eauto.
    - now rewrite lookup_insert_ne. }
  induction items as [|[k' v] items IH]; intros st H; [exact H|].
  cbn [register_loop].
  destruct v; try exact H.
  - destruct (restconf !! k') as [conf|]; [|exact H].
    destruct (conf !! "url"); [|exact H]. apply IH, Hset, H.
  - destruct (objects !! o) as [self|]; [|exact H].
    destruct (svc_initialise self o);
      [apply IH, Hset, H | apply Hset, H | apply Hset, H].
Qed.

(** X20.  [register] only adds to the registry or replaces entries under
    the names it is given: a name that is registered stays registered
    however the call ends, a name that is not among the keys of
    [services] keeps its entry, and the verbose flag is left alone.  When
    [services] is not a dict the call raises ValueError('services') and
    the registry is what it was. *)
Theorem register_only_adds (services : pyval) (salt : string) (st : state)
    (k : string) :
  let out := register objects services restconf salt st in
  (is_Some (__mdRegistered st !! k) ->
   is_Some (__mdRegistered (fst out) !! k))
  /\ ((forall items, services = PDict items -> k ∉ items.*1) ->
      __mdRegistered (fst out) !! k = __mdRegistered st !! k)
  /\ __mbVerbose (fst out) = __mbVerbose st
  /\ ((forall items, services <> PDict items) ->
      snd out = Raise ValueError [PStr "services"]
      /\ __mdRegistered (fst out) = __mdRegistered st).
Proof.
  cbv zeta. unfold register.
  destruct services as [ | | | | | | | items | | | ];
    try (repeat split; auto; fail).
  repeat split.
  - intros H. now apply register_loop_keeps.
  - intros H.
    now destruct (register_loop_other objects restconf k items
                    (set_salt salt st) (H items eq_refl)).
  - now rewrite register_loop_verbose.
  - now destruct (H items).
  - now destruct (H items).
Qed.

(** X21.  A handler is stored before its [initialise] runs: when the hook
    raises, the exception leaves [register], and the handler is in the
    registry all the same. *)
Theorem register_hook_raises pre k o self cls args post salt st :
  Forall (fun kv => is_Some (entry (fst kv) (snd kv))) pre ->
  objects !! o = Some self ->
  svc_initialise self o = Raise cls args ->
  let out := register objects (PDict (pre ++ (k, PObj o) :: post)%list)
               restconf salt st in
  snd out = Raise cls args
  /\ __mdRegistered (fst out) !! k = Some (Instance o).
Proof.
  intros Hall Hobj Hinit. cbv zeta. unfold register.
  rewrite (register_loop_prefix objects restconf pre _ _ Hall).
  cbn [register_loop]. rewrite Hobj, Hinit. cbn [fst snd].
  split; [reflexivity|].
  cbn [set_registered __mdRegistered]. apply lookup_insert_eq.
Qed.

(** X22.  A name bound to None whose configuration entry has no 'url'
    key stops [register] with KeyError('url'); the name is not registered
    by this call. *)
Theorem register_missing_url pre k conf post salt st :
  Forall (fun kv => is_Some (entry (fst kv) (snd kv))) pre ->
  restconf !! k = Some conf ->
  conf !! "url" = None ->
  let out := register objects (PDict (pre ++ (k, PNone) :: post)%list)
               restconf salt st in
  snd out = Raise KeyError [PStr "url"]
  /\ (k ∉ pre.*1 ->
      __mdRegistered (fst out) !! k = __mdRegistered st !! k).
Proof.
  intros Hall Hconf Hurl. cbv zeta. unfold register.
  rewrite (register_loop_prefix objects restconf pre _ _ Hall).
  cbn [register_loop]. rewrite Hconf, Hurl. cbn [fst snd].
  split; [reflexivity|]. intros Hk.
  now rewrite (bindings_state_other objects restconf pre k _ Hk).
Qed.

(** X23.  When [register] returns, every name that was bound to None is
    registered with the 'url' of its configuration entry. *)
Theorem register_remote items salt st st' :
  NoDup items.*1 ->
  register objects (PDict items) restconf salt st = (st', Return tt) ->
  forall k, (k, PNone) ∈ items ->
    exists conf url,
      restconf !! k = Some conf
      /\ conf !! "url" = Some url
      /\ __mdRegistered st' !! k = Some (Url url).
Proof.
  intros Hnd Hreg k Hin. unfold register in Hreg.
  pose proof (register_loop_returns objects restconf _ _ _ Hreg) as Hall.
  rewrite <- (app_nil_r items) in Hreg.
  rewrite (register_loop_prefix objects restconf items [] _ Hall) in Hreg.
  cbn [register_loop] in Hreg. injection Hreg as <-.
  rewrite Forall_forall in Hall. destruct (Hall (k, PNone) Hin) as [r Hr].
  cbn [fst snd] in Hr.
  pose proof (bindings_state_lookup objects restconf items k PNone r
                (set_salt salt st) Hnd Hin Hr) as Hk.
  unfold binding_entry in Hr.
  destruct (restconf !! k) as [conf|] eqn:Ec; [|discriminate Hr].
  destruct (conf !! "url") as [url|] eqn:Eu; [|discriminate Hr].
  injection Hr as <-. exists conf, url.
  split; [reflexivity|]. split; [exact Eu | exact Hk].
Qed.

End RegisterMore.

Lemma register_only_adds_witness :
  __mdRegistered
    (fst (register Example2.objects (PDict [("sms", PNone)])
            Example2.restconf "fresh" Example2.started)) !! "auth"
  = Some (Instance 1%positive).
Proof.
  refine (eq_trans
            (proj1 (proj2 (register_only_adds Example2.objects
                             Example2.restconf (PDict [("sms", PNone)])
                             "fresh" Example2.started "auth")) _)
            eq_refl).
  intros items Heq. injection Heq as <-.
  apply (bool_decide_unpack _). reflexivity.
Defined.

Lemma register_hook_raises_witness :
  let out := register Example2.objects (PDict [("db", PObj 2%positive)])
               Example2.restconf "s3cret" initial in
  snd out = Raise ValueError [PStr "no database"]
  /\ __mdRegistered (fst out) !! "db" = Some (Instance 2%positive).
Proof.
  exact (register_hook_raises Example2.objects Example2.restconf
           [] "db" 2%positive Example2.stillborn ValueError
           [PStr "no database"] [] "s3cret" initial
           (List.Forall_nil _) eq_refl eq_refl).
Defined.

Lemma register_missing_url_witness :
  snd (register Example2.objects (PDict [("sms", PNone)])
         Example2.restconf "s3cret" initial)
  = Raise KeyError [PStr "url"].
Proof.
  exact (proj1 (register_missing_url Example2.objects Example2.restconf
                  [] "sms" {[ "host" := "sms.local" ]} [] "s3cret" initial
                  (List.Forall_nil _) eq_refl eq_refl)).
Defined.

Lemma register_remote_witness :
  exists conf url,
    Example2.restconf !! "mail" = Some conf
    /\ conf !! "url" = Some url
    /\ __mdRegistered Example2.started !! "mail" = Some (Url url).
Proof.
  refine (register_remote Example2.objects Example2.restconf
            [("auth", PObj 1%positive); ("mail", PNone)] "s3cret" initial
            Example2.started _ eq_refl "mail" _).
  - apply (bool_decide_unpack _). reflexivity.
  - apply list_elem_of_further, list_elem_of_here.
Defined.


(** ** More on the path *)

Lemma pathToMethod_loop_plain (path : string) : forall sRet,
  Py.all_chars is_plain path = true ->
  pathToMethod_loop path sRet = Return (sRet +:+ path).
Proof.
  induction path as [|c rest IH]; intros sRet H.
  - cbn [pathToMethod_loop]. now rewrite append_nil_r.
  - cbn [Py.all_chars] in H. apply andb_prop in H as [Hc Hrest].
    unfold is_plain in Hc. apply negb_true_iff in Hc.
    cbn [pathToMethod_loop]. rewrite Hc, (IH _ Hrest).
    now rewrite append_assoc.
Qed.

(** The loop on two paths one after the other, when it gets through the
    first, goes on with the second from what the first gave. *)
Lemma pathToMethod_loop_app (n : nat) : forall a b sRet x,
  (String.length a <= n)%nat ->
  pathToMethod_loop a sRet = Return x ->
  pathToMethod_loop (a +:+ b) sRet = pathToMethod_loop b x.
Proof.
  induction n as [|n IH]; intros a b sRet x Hlen H.
  - destruct a; [| simpl in Hlen; lia].
    cbn [pathToMethod_loop] in H. injection H as <-. reflexivity.
  - destruct a as [|c rest].
    { cbn [pathToMethod_loop] in H. injection H as <-. reflexivity. }
    simpl in Hlen. cbn [String.append pathToMethod_loop] in *.
    destruct (is_separator c).
    + destruct rest as [|d rest']; [discriminate H|].
      cbn [String.append]. simpl in Hlen.
      destruct (Py.upper d) as [u| |];
        cbn [mbind result_mbind result_bind] in *; try discriminate H.
      apply IH; [lia | exact H].
    + apply IH; [lia | exact H].
Qed.

(** What the loop has collected so far stays in front of what it adds. *)
Lemma pathToMethod_loop_acc (n : nat) : forall path sRet,
  (String.length path <= n)%nat ->
  pathToMethod_loop path sRet
  = (r ← pathToMethod_loop path ""; Return (sRet +:+ r)).
Proof.
  induction n as [|n IH]; intros path sRet Hlen.
  - destruct path; [| simpl in Hlen; lia].
    cbn. now rewrite append_nil_r.
  - destruct path as [|c rest].
    { cbn. now rewrite append_nil_r. }
    simpl in Hlen. cbn [pathToMethod_loop].
    destruct (is_separator c).
    + destruct rest as [|d rest']; [reflexivity|].
      simpl in Hlen.
      destruct (Py.upper d) as [u| |];
        cbn [mbind result_mbind result_bind]; try reflexivity.
      rewrite (IH rest' (sRet +:+ u)), (IH rest' ("" +:+ u)) by lia.
      destruct (pathToMethod_loop rest' ""); cbn; try reflexivity.
      now rewrite append_assoc.
    + rewrite (IH rest (sRet +:+ String c "")),
        (IH rest ("" +:+ String c "")) by lia.
      destruct (pathToMethod_loop rest ""); cbn; try reflexivity.
      now rewrite append_assoc.
Qed.

(** X24.  A path that holds no '/' and no '_' is its own method name: the
    call returns the path, whatever its characters, followed by the
    suffix. *)
Theorem pathToMethod_plain (path append : string) :
  Py.all_chars is_plain path = true ->
  pathToMethod path append = Return (path +:+ append).
Proof.
  intros H. unfold pathToMethod.
  now rewrite (pathToMethod_loop_plain path "" H).
Qed.

Lemma pathToMethod_plain_witness :
  pathToMethod "signin" "_create" = Return "signin_create".
Proof. exact (pathToMethod_plain "signin" "_create" eq_refl). Defined.

(** X25.  Names are built from left to right: when a path resolves to a
    name, that path followed by a second one gives what the second gives,
    with the first name in front of it: the same exception, or the two names
    one after the other and the suffix at the end. *)
Theorem pathToMethod_app (a b append na : string) :
  pathToMethod a "" = Return na ->
  pathToMethod (a +:+ b) append
  = (nb ← pathToMethod b append; Return (na +:+ nb)).
Proof.
  unfold pathToMethod. intros H.
  destruct (pathToMethod_loop a "") as [x| |] eqn:Ea;
    cbn [mbind result_mbind result_bind] in H; try discriminate H.
  injection H as <-. rewrite append_nil_r.
  rewrite (pathToMethod_loop_app _ a b "" x (le_n _) Ea).
  rewrite (pathToMethod_loop_acc _ b x (le_n _)).
  destruct (pathToMethod_loop b ""); cbn; try reflexivity.
  now rewrite append_assoc.
Qed.

Lemma pathToMethod_app_witness :
  pathToMethod "user/permission_list" "_read"
  = Return "userPermissionList_read"
  /\ pathToMethod "user/permission_" "_read"
     = Raise IndexError [PStr "string index out of range"].
Proof.
  split.
  - exact (pathToMethod_app "user/permission" "_list" "_read"
             "userPermission" eq_refl).
  - exact (pathToMethod_app "user/permission" "_" "_read"
             "userPermission" eq_refl).
Defined.
